(** * poke_plugin: the active poke action of plugin.py

    A shallow embedding of [ActivePokeAction] (target resolution through the
    Napcat HTTP gateway, the self-target guard, [send_poke] and [execute]),
    followed by the properties of the specification that concern it.

    - Python values are the values [json.loads] produces, floats left out
      (identifiers are integers or strings).  Strings are byte strings holding
      UTF-8 text; substring search on UTF-8 bytes agrees with substring search
      on code points.
    - The gateway is a function from requests to replies.  A reply records
      how far the library calls of one round trip get: the connection fails,
      the body does not decode, or the body decodes and [json.loads] returns
      a value or raises.  Every request [conn.request] attempts is appended
      to a log, in order.
    - A computation returns a value or raises a Python exception; the [try]
      blocks of the source are where exceptions are caught here as well.
    - The lookups and [send_poke] are first defined without the connection
      object they build before their [try], and [execute] without the
      configuration reload that opens it: these definitions are the methods
      for a host [http.client.HTTPConnection] accepts and an action whose
      [plugin] is unset.  Module [Full] has the methods with the connection
      object and the reload, which raise outside every [try]; the lemmas
      [full_get_ids_spec], [full_send_poke_spec], [full_execute_accepted]
      and [full_execute_rejected] relate the two.
    - The configured port is any value, and [int] may reject it.  [int],
      [str] and [repr] are those of CPython 3.11.  [repr] is modelled on text
      whose characters outside ASCII are printable; integers are of the size
      [json.loads] returns, at most 4300 digits, which [str] prints. *)

From Stdlib Require Import ZArith List String Ascii Bool DecimalString DecimalPos DecimalZ.
Import ListNotations.
Local Open Scope string_scope.
Local Open Scope Z_scope.

Set Implicit Arguments.

(** ** Python values *)

Module Py.

#[warnings="-register-all"]
Inductive pyval : Type :=
| PNone
| PBool (b : bool)
| PInt (n : Z)
| PStr (s : string)
| PList (xs : list pyval)
| PDict (kvs : list (string * pyval)).

(** A dict keeps its insertion order; keys are unique in a dict built by
    [json.loads] or by a dict display. *)
Definition pydict := list (string * pyval).

(** Exceptions carry [type(e).__name__] and [str(e)]. *)
Record exn := Exn { error_type : string; error_message : string }.

Inductive result (A : Type) : Type :=
| Ret (a : A)
| Raise (e : exn).
Arguments Ret {A} a.
Arguments Raise {A} e.

Definition rbind {A B} (r : result A) (k : A -> result B) : result B :=
  match r with
  | Ret a => k a
  | Raise e => Raise e
  end.

Declare Scope result_scope.
Delimit Scope result_scope with result.
Notation "x <~ r ; k" := (rbind r (fun x => k))
  (at level 61, r at next level, right associativity) : result_scope.

(** [bool(v)]: the truth value Python gives [v] in [if v] and [not v]. *)
Definition truthy (v : pyval) : bool :=
  match v with
  | PNone => false
  | PBool b => b
  | PInt n => negb (n =? 0)
  | PStr s => negb (s =? "")%string
  | PList xs => match xs with [] => false | _ => true end
  | PDict kvs => match kvs with [] => false | _ => true end
  end.

Definition is_none (v : pyval) : bool :=
  match v with PNone => true | _ => false end.

Definition is_list (v : pyval) : bool :=
  match v with PList _ => true | _ => false end.

(** *** Dictionaries *)

Fixpoint dict_get (k : string) (d : pydict) : option pyval :=
  match d with
  | [] => None
  | (k', v) :: d' => if (k =? k')%string then Some v else dict_get k d'
  end.

(** [d.get(k, default)] on a dict. *)
Definition dict_get_default (d : pydict) (k : string) (default : pyval) : pyval :=
  match dict_get k d with
  | Some v => v
  | None => default
  end.

(** [k in d] on a dict. *)
Definition dict_mem (k : string) (d : pydict) : bool :=
  match dict_get k d with Some _ => true | None => false end.

(** [d[k] = v] for a key already present: the entry keeps its position. *)
Fixpoint dict_set (k : string) (v : pyval) (d : pydict) : pydict :=
  match d with
  | [] => [(k, v)]
  | (k', v') :: d' =>
      if (k =? k')%string then (k', v) :: d' else (k', v') :: dict_set k v d'
  end.

Definition type_name (v : pyval) : string :=
  match v with
  | PNone => "NoneType"
  | PBool _ => "bool"
  | PInt _ => "int"
  | PStr _ => "str"
  | PList _ => "list"
  | PDict _ => "dict"
  end.

Definition AttributeError (v : pyval) (attr : string) : exn :=
  Exn "AttributeError"
      ("'" ++ type_name v ++ "' object has no attribute '" ++ attr ++ "'").

(** [o.get(k, default)] on an arbitrary value: only a dict has [get]. *)
Definition py_get (o : pyval) (k : string) (default : pyval) : result pyval :=
  match o with
  | PDict d => Ret (dict_get_default d k default)
  | _ => Raise (AttributeError o "get")
  end.

(** *** Equality and containment *)

(** [needle in hay] on strings: [needle] occurs in [hay]. *)
Fixpoint contains (needle hay : string) : bool :=
  if prefix needle hay then true
  else match hay with
       | EmptyString => false
       | String _ hay' => contains needle hay'
       end.

(** [a == b].  [True == 1] and [False == 0] hold in Python; dicts compare
    as maps, whatever the order of their entries. *)
Fixpoint py_eq (a b : pyval) {struct a} : bool :=
  match a, b with
  | PNone, PNone => true
  | PBool x, PBool y => Bool.eqb x y
  | PBool x, PInt n => (if x then 1 else 0) =? n
  | PInt n, PBool y => n =? (if y then 1 else 0)
  | PInt n, PInt m => n =? m
  | PStr s, PStr t => (s =? t)%string
  | PList xs, PList ys =>
      (fix list_eq (xs ys : list pyval) {struct xs} : bool :=
         match xs, ys with
         | [], [] => true
         | x :: xs', y :: ys' => py_eq x y && list_eq xs' ys'
         | _, _ => false
         end) xs ys
  | PDict d, PDict e =>
      (List.length d =? List.length e)%nat &&
      (fix all_in (d : pydict) {struct d} : bool :=
         match d with
         | [] => true
         | (k, v) :: d' =>
             match dict_get k e with
             | Some w => py_eq v w && all_in d'
             | None => false
             end
         end) d
  | _, _ => false
  end.

(** [needle in hay] for an arbitrary right operand. *)
Definition py_in (needle hay : pyval) : result bool :=
  match hay with
  | PStr h =>
      match needle with
      | PStr n => Ret (contains n h)
      | _ =>
          Raise (Exn "TypeError"
                     ("'in <string>' requires string as left operand, not "
                        ++ type_name needle))
      end
  | PList xs => Ret (existsb (py_eq needle) xs)
  | PDict d =>
      match needle with
      | PStr n => Ret (dict_mem n d)
      | PList _ | PDict _ =>
          Raise (Exn "TypeError" ("unhashable type: '" ++ type_name needle ++ "'"))
      | _ => Ret false
      end
  | _ =>
      Raise (Exn "TypeError"
                 ("argument of type '" ++ type_name hay ++ "' is not iterable"))
  end.

(** *** [str], [repr] and [int] *)

Definition string_of_Z (n : Z) : string := NilZero.string_of_int (Z.to_int n).

Definition squote : ascii := "039"%char.
Definition dquote : ascii := "034"%char.
Definition backslash : ascii := "092"%char.

Definition hex_digit (n : nat) : ascii :=
  match get n "0123456789abcdef" with
  | Some c => c
  | None => "0"%char
  end.

Fixpoint mentions (c : ascii) (s : string) : bool :=
  match s with
  | EmptyString => false
  | String c' s' => (c =? c')%char || mentions c s'
  end.

(** One character of [repr(s)] between the quotes [quote].  Bytes from 0x80
    up belong to multi-byte UTF-8 characters and are kept.  [repr] keeps every
    printable character and escapes the others; outside ASCII the characters
    that are not printable (U+00A0, U+200B, U+3000 and the like) are kept
    here all the same, so this is [repr] on text without them. *)
Definition repr_char (quote c : ascii) : string :=
  let n := nat_of_ascii c in
  if (c =? quote)%char || (c =? backslash)%char then String backslash (String c "")
  else if (n =? 9)%nat then String backslash "t"
  else if (n =? 10)%nat then String backslash "n"
  else if (n =? 13)%nat then String backslash "r"
  else if (n <? 32)%nat || (n =? 127)%nat then
    String backslash
      (String "x" (String (hex_digit (n / 16)) (String (hex_digit (n mod 16)) "")))
  else String c "".

Fixpoint repr_chars (quote : ascii) (s : string) : string :=
  match s with
  | EmptyString => ""
  | String c s' => repr_char quote c ++ repr_chars quote s'
  end.

(** [repr(s)] for a string: single quotes, unless [s] has a single quote and
    no double quote. *)
Definition repr_quote (s : string) : ascii :=
  if mentions squote s && negb (mentions dquote s) then dquote else squote.

Definition repr_str (s : string) : string :=
  let quote := repr_quote s in
  String quote (repr_chars quote s ++ String quote "").

Fixpoint join (sep : string) (parts : list string) : string :=
  match parts with
  | [] => ""
  | [p] => p
  | p :: rest => p ++ sep ++ join sep rest
  end.

Fixpoint py_repr (v : pyval) : string :=
  match v with
  | PNone => "None"
  | PBool b => if b then "True" else "False"
  | PInt n => string_of_Z n
  | PStr s => repr_str s
  | PList xs => "[" ++ join ", " (map py_repr xs) ++ "]"
  | PDict kvs =>
      "{" ++ join ", " (map (fun '(k, v) => repr_str k ++ ": " ++ py_repr v) kvs)
          ++ "}"
  end.

(** [str(v)]: a string is itself, everything else prints as its [repr]. *)
Definition py_str (v : pyval) : string :=
  match v with
  | PStr s => s
  | _ => py_repr v
  end.

(** [o[k]] with a string key. *)
Definition py_getitem (o : pyval) (k : string) : result pyval :=
  match o with
  | PDict d =>
      match dict_get k d with
      | Some v => Ret v
      | None => Raise (Exn "KeyError" (repr_str k))
      end
  | PList _ =>
      Raise (Exn "TypeError" "list indices must be integers or slices, not str")
  | PStr _ =>
      Raise (Exn "TypeError" "string indices must be integers, not 'str'")
  | _ =>
      Raise (Exn "TypeError"
                 ("'" ++ type_name o ++ "' object is not subscriptable"))
  end.

(** *** [int] of a text

    [int(s)] as CPython 3.11 computes it in base 10.  A text that is not
    all ASCII is first rewritten: white space becomes a blank, a decimal
    digit of any script its ASCII digit, and the first character that is
    neither ends the text with a question mark.  The literal is then read:
    white space, a sign, digits with single underscores between them, white
    space.  More than [max_str_digits] digits are refused. *)

(** The ASCII white space [int] skips at both ends of a literal. *)
Definition is_space (c : ascii) : bool :=
  let n := nat_of_ascii c in
  ((n =? 32) || ((9 <=? n) && (n <=? 13)))%nat.

Fixpoint lstrip (s : string) : string :=
  match s with
  | EmptyString => ""
  | String c s' => if is_space c then lstrip s' else s
  end.

Fixpoint all_space (s : string) : bool :=
  match s with
  | EmptyString => true
  | String c s' => is_space c && all_space s'
  end.

Fixpoint all_ascii (s : string) : bool :=
  match s with
  | EmptyString => true
  | String c s' => (N_of_ascii c <? 128)%N && all_ascii s'
  end.

(** White space outside ASCII, by code point. *)
Definition unicode_space (cp : N) : bool :=
  ((cp =? 133) || (cp =? 160) || (cp =? 5760)
   || ((8192 <=? cp) && (cp <=? 8202))
   || (cp =? 8232) || (cp =? 8233) || (cp =? 8239) || (cp =? 8287)
   || (cp =? 12288))%N.

(** The decimal digits outside ASCII (Unicode 14.0, as CPython 3.11 has it):
    every range is a run of whole decades, each counting from zero. *)
Definition decimal_ranges : list (N * N) :=
  [(1632, 1641); (1776, 1785); (1984, 1993); (2406, 2415);
   (2534, 2543); (2662, 2671); (2790, 2799); (2918, 2927);
   (3046, 3055); (3174, 3183); (3302, 3311); (3430, 3439);
   (3558, 3567); (3664, 3673); (3792, 3801); (3872, 3881);
   (4160, 4169); (4240, 4249); (6112, 6121); (6160, 6169);
   (6470, 6479); (6608, 6617); (6784, 6793); (6800, 6809);
   (6992, 7001); (7088, 7097); (7232, 7241); (7248, 7257);
   (42528, 42537); (43216, 43225); (43264, 43273); (43472, 43481);
   (43504, 43513); (43600, 43609); (44016, 44025); (65296, 65305);
   (66720, 66729); (68912, 68921); (69734, 69743); (69872, 69881);
   (69942, 69951); (70096, 70105); (70384, 70393); (70736, 70745);
   (70864, 70873); (71248, 71257); (71360, 71369); (71472, 71481);
   (71904, 71913); (72016, 72025); (72784, 72793); (73040, 73049);
   (73120, 73129); (92768, 92777); (92864, 92873); (93008, 93017);
   (120782, 120831); (123200, 123209); (123632, 123641); (125264, 125273);
   (130032, 130041)]%N.

Definition unicode_decimal (cp : N) : option N :=
  match find (fun r => (fst r <=? cp) && (cp <=? snd r))%N decimal_ranges with
  | Some r => Some ((cp - fst r) mod 10)%N
  | None => None
  end.

(** What a character from U+007F up becomes, in front of [rest]. *)
Definition ascii_for (cp : N) (rest : string) : string :=
  if unicode_space cp then String " " rest
  else match unicode_decimal cp with
       | Some d => String (ascii_of_N (48 + d)) rest
       | None => "?"
       end.

(** The six payload bits of a continuation byte of UTF-8. *)
Definition low6 (b : ascii) : N := (N_of_ascii b mod 64)%N.

(** The rewriting of a text that is not all ASCII, one UTF-8 character at a
    time. *)
Fixpoint transform (s : string) : string :=
  match s with
  | EmptyString => ""
  | String b1 rest1 =>
      let n1 := N_of_ascii b1 in
      if (n1 <? 127)%N then String b1 (transform rest1)
      else if (n1 <? 128)%N then ascii_for n1 (transform rest1)
      else
        match rest1 with
        | EmptyString => "?"
        | String b2 rest2 =>
            if (n1 <? 224)%N then
              ascii_for ((n1 mod 32) * 64 + low6 b2)%N (transform rest2)
            else
              match rest2 with
              | EmptyString => "?"
              | String b3 rest3 =>
                  if (n1 <? 240)%N then
                    ascii_for (((n1 mod 16) * 64 + low6 b2) * 64 + low6 b3)%N
                              (transform rest3)
                  else
                    match rest3 with
                    | EmptyString => "?"
                    | String b4 rest4 =>
                        ascii_for
                          ((((n1 mod 8) * 64 + low6 b2) * 64 + low6 b3) * 64
                           + low6 b4)%N
                          (transform rest4)
                    end
              end
        end
  end.

(** An ASCII text is read as it is. *)
Definition to_ascii (s : string) : string :=
  if all_ascii s then s else transform s.

Definition digit_value (c : ascii) : option Z :=
  let n := nat_of_ascii c in
  if ((48 <=? n) && (n <=? 57))%nat then Some (Z.of_nat (n - 48)) else None.

(** Decimal digits, single underscores allowed between two digits. *)
Fixpoint parse_digits (s : string) (acc : Z) (after_digit : bool) : option Z :=
  match s with
  | EmptyString => if after_digit then Some acc else None
  | String c s' =>
      match digit_value c with
      | Some d => parse_digits s' (10 * acc + d) true
      | None =>
          if (c =? "_")%char && after_digit then parse_digits s' acc false
          else None
      end
  end.

(** The digits and underscores a text starts with, and what follows them. *)
Fixpoint digit_run (s : string) : string * string :=
  match s with
  | EmptyString => ("", "")
  | String c s' =>
      match digit_value c with
      | None =>
          if (c =? "_")%char
          then let '(run, rest) := digit_run s' in (String c run, rest)
          else ("", s)
      | Some _ => let '(run, rest) := digit_run s' in (String c run, rest)
      end
  end.

Fixpoint count_digits (run : string) : N :=
  match run with
  | EmptyString => 0
  | String c run' =>
      ((if (c =? "_")%char then 0 else 1) + count_digits run')%N
  end.

(** [sys.get_int_max_str_digits()], at its default. *)
Definition max_str_digits : N := 4300.

(** What reading a literal comes to. *)
Inductive literal : Type :=
| Integer (n : Z)
| Invalid
| TooLong (digits : N).

(** The digits of a literal, past the sign: the run of digits is checked
    first, then its length, then what follows it. *)
Definition read_digits (s : string) : literal :=
  let '(run, rest) := digit_run s in
  match parse_digits run 0 false with
  | None => Invalid
  | Some n =>
      if (max_str_digits <? count_digits run)%N then TooLong (count_digits run)
      else if all_space rest then Integer n
      else Invalid
  end.

Definition negated (l : literal) : literal :=
  match l with
  | Integer n => Integer (- n)
  | _ => l
  end.

Definition read_literal (s : string) : literal :=
  match lstrip (to_ascii s) with
  | String "-" s' => negated (read_digits s')
  | String "+" s' => read_digits s'
  | s' => read_digits s'
  end.

(** The first [n] characters of a text: a character starts at every byte
    that is not a continuation byte of UTF-8. *)
Fixpoint take_chars (n : nat) (s : string) : string :=
  match s with
  | EmptyString => ""
  | String b rest =>
      if ((128 <=? N_of_ascii b) && (N_of_ascii b <? 192))%N
      then String b (take_chars n rest)
      else match n with
           | O => ""
           | S n' => String b (take_chars n' rest)
           end
  end.

(** [int(v)]: an integer, a boolean, or a text holding a decimal literal.
    The error for a text that is no literal shows the first 200 characters
    of its [repr]. *)
Definition py_int (v : pyval) : result Z :=
  match v with
  | PInt n => Ret n
  | PBool b => Ret (if b then 1 else 0)
  | PStr s =>
      match read_literal s with
      | Integer n => Ret n
      | Invalid =>
          Raise (Exn "ValueError"
                     ("invalid literal for int() with base 10: "
                        ++ take_chars 200 (repr_str s)))
      | TooLong digits =>
          Raise (Exn "ValueError"
                     ("Exceeds the limit (4300 digits) for integer string conversion: value has "
                        ++ string_of_Z (Z.of_N digits)
                        ++ " digits; use sys.set_int_max_str_digits() to increase the limit"))
      end
  | _ =>
      Raise (Exn "TypeError"
                 ("int() argument must be a string, a bytes-like object or a real number, not '"
                    ++ type_name v ++ "'"))
  end.

End Py.

Import Py.
Local Open Scope result_scope.

(** ** The gateway and the request log *)

(** What [conn.request("POST", endpoint, payload, headers)] sends: [payload]
    is the dict handed to [json.dumps]. *)
Record request := Request {
  req_host : string;
  req_port : Z;
  endpoint : string;
  payload : pydict;
  headers : pydict
}.

(** How far the calls [conn.request], [conn.getresponse], [res.read],
    [data.decode("utf-8")] and [json.loads] get on one request. *)
Inductive reply : Type :=
| ConnFail (e : exn)
    (** [conn.request], [conn.getresponse] or [res.read] raises [e] *)
| BadUtf8 (e : exn)
    (** a body arrives and [data.decode("utf-8")] raises [e] *)
| Body (text : string) (loaded : result pyval).
    (** the body decodes to [text]; [loaded] is what [json.loads(text)] does:
        it returns a value or raises *)

Definition gateway := request -> reply.

(** Computations read the gateway, append to the log of attempted requests
    and return or raise. *)
Definition M (A : Type) : Type :=
  gateway -> list request -> result A * list request.

Definition ret {A} (a : A) : M A := fun _ log => (Ret a, log).

Definition bind {A B} (m : M A) (k : A -> M B) : M B :=
  fun gw log =>
    match m gw log with
    | (Ret a, log') => k a gw log'
    | (Raise e, log') => (Raise e, log')
    end.

Definition lift {A} (r : result A) : M A := fun _ log => (r, log).

(** [try: m  except Exception as e: handler(e)] *)
Definition try_except {A} (m : M A) (handler : exn -> M A) : M A :=
  fun gw log =>
    match m gw log with
    | (Ret a, log') => (Ret a, log')
    | (Raise e, log') => handler e gw log'
    end.

(** One round trip: the request is logged as soon as it is attempted. *)
Definition post (rq : request) : M reply :=
  fun gw log => (Ret (gw rq), (log ++ [rq])%list).

Declare Scope gateway_scope.
Delimit Scope gateway_scope with gateway.
Notation "x <- m ;; k" := (bind m (fun x => k))
  (at level 61, m at next level, right associativity) : gateway_scope.
Notation "' pat <- m ;; k" := (bind m (fun x => match x with pat => k end))
  (at level 61, pat pattern, m at next level, right associativity) : gateway_scope.
Local Open Scope gateway_scope.

(** The steps of a [try] body up to [data_json = json.loads(result)]. *)
Definition read_json (rep : reply) : result pyval :=
  match rep with
  | ConnFail e => Raise e
  | BadUtf8 e => Raise e
  | Body _ loaded => loaded
  end.

(** [except Exception as e: logger.error(...); return None] *)
Definition or_none (r : result pyval) : pyval :=
  match r with
  | Ret v => v
  | Raise _ => PNone
  end.

(** [a or b] on two tests, the second evaluated only when the first is false. *)
Definition or_else (a b : result bool) : result bool :=
  x <~ a ; if x : bool then Ret true else b.

(** [{"Content-Type": "application/json"}], with [Authorization] for a
    non-empty token. *)
Definition make_headers (token : string) : pydict :=
  ("Content-Type", PStr "application/json")
    :: (if truthy (PStr token) then [("Authorization", PStr token)] else []).

(** ** The action object *)

Record message_info_t := MessageInfo { mi_group_id : option pyval }.
Record message_t := Message { message_info : option message_info_t }.
Record chat_stream_t := ChatStream { cs_group_id : option pyval }.

(** The attributes of [self] the action reads.  An [option] is [None] when the
    attribute is missing or holds Python's [None]; the configuration fields are
    those [__init__] copies out of the plugin configuration. *)
Record ActivePokeAction := Action {
  message : option message_t;
  chat_stream : option chat_stream_t;
  action_data : pydict;
  own_group_id : option pyval;
  own_user_id : option pyval;
  napcat_host : string;
  napcat_port : pyval;
  poke_debug : bool;
  token : string
}.

(** [getattr(obj, name, None)] once the attribute lookup is an [option]. *)
Definition getattr_or_none (a : option pyval) : pyval :=
  match a with
  | Some v => v
  | None => PNone
  end.

(** ** Resolution stages

    The four lookups [get_ids] calls.  [napcat_get_friend_id_by_name] and
    [napcat_get_user_id_from_group_history] are never called and are left
    out. *)

Section Stages.

Variables (host : string) (port : Z) (tok : string).

(** The member loop of [napcat_get_group_member_id_by_name]. *)
Fixpoint scan_members (target_name : pyval) (members : list pyval) : result pyval :=
  match members with
  | [] => Ret PNone
  | member :: rest =>
      nickname <~ py_get member "nickname" (PStr "") ;
      card <~ py_get member "card" (PStr "") ;
      remark <~ py_get member "remark" (PStr "") ;
      hit <~ or_else (py_in target_name nickname)
               (or_else (py_in target_name card) (py_in target_name remark)) ;
      if hit : bool then py_get member "user_id" PNone
      else scan_members target_name rest
  end.

(** The friend loop of [napcat_get_user_id_by_name]. *)
Fixpoint scan_friends (target_name : pyval) (friends : list pyval) : result pyval :=
  match friends with
  | [] => Ret PNone
  | friend :: rest =>
      nickname <~ py_get friend "nickname" (PStr "") ;
      remark <~ py_get friend "remark" (PStr "") ;
      hit <~ or_else (py_in target_name nickname) (py_in target_name remark) ;
      if hit : bool then py_get friend "user_id" PNone
      else scan_friends target_name rest
  end.

(** The group loop of [napcat_get_group_id_by_name]. *)
Fixpoint scan_groups (target_name : pyval) (groups : list pyval) : result pyval :=
  match groups with
  | [] => Ret PNone
  | group :: rest =>
      group_name <~ py_get group "group_name" (PStr "") ;
      group_remark <~ py_get group "group_remark" (PStr "") ;
      hit <~ or_else (py_in target_name group_name)
               (py_in target_name group_remark) ;
      if hit : bool then py_get group "group_id" PNone
      else scan_groups target_name rest
  end.

(** The message loop of [napcat_get_user_id_from_group_history_by_msg]. *)
Fixpoint scan_messages (poke_keywords : pyval) (messages : list pyval) : result pyval :=
  match messages with
  | [] => Ret PNone
  | msg :: rest =>
      raw_message <~ py_get msg "raw_message" (PStr "") ;
      sender <~ py_get msg "sender" (PDict []) ;
      hit <~ py_in poke_keywords raw_message ;
      if hit : bool then py_get sender "user_id" PNone
      else scan_messages poke_keywords rest
  end.

(** [for x in v] where the guard before the loop established a list. *)
Definition for_each (v : pyval) (body : list pyval -> result pyval) : result pyval :=
  match v with
  | PList xs => body xs
  | _ => Raise (Exn "TypeError"
                    ("'" ++ type_name v ++ "' object is not iterable"))
  end.

(** The [try] body shared by the three list endpoints: status check,
    [isinstance(data_json.get("data"), list)], then the loop over
    [data_json["data"]]; [return None] when the guard fails or the loop ends. *)
Definition scan_data (scan : list pyval -> result pyval) (rep : reply) : result pyval :=
  data_json <~ read_json rep ;
  status <~ py_get data_json "status" PNone ;
  if py_eq status (PStr "ok") then
    data <~ py_get data_json "data" PNone ;
    if is_list data then
      items <~ py_getitem data_json "data" ;
      for_each items scan
    else Ret PNone
  else Ret PNone.

(** The [try] body of the history endpoint: the guard looks at
    [data_json.get("data", {}).get("messages", [])], the loop at
    [data_json["data"]["messages"]]. *)
Definition scan_history (poke_keywords : pyval) (rep : reply) : result pyval :=
  data_json <~ read_json rep ;
  status <~ py_get data_json "status" PNone ;
  if py_eq status (PStr "ok") then
    data <~ py_get data_json "data" (PDict []) ;
    messages <~ py_get data "messages" (PList []) ;
    if is_list messages then
      data' <~ py_getitem data_json "data" ;
      items <~ py_getitem data' "messages" ;
      for_each items (scan_messages poke_keywords)
    else Ret PNone
  else Ret PNone.

Definition group_member_list_request (group_id : pyval) : request :=
  Request host port "/get_group_member_list"
          [("group_id", group_id); ("no_cache", PBool false)] (make_headers tok).

Definition friend_list_request : request :=
  Request host port "/get_friend_list" [("no_cache", PBool false)] (make_headers tok).

Definition group_list_request : request :=
  Request host port "/get_group_list" [("no_cache", PBool false)] (make_headers tok).

Definition group_msg_history_request (group_id : pyval) : request :=
  Request host port "/get_group_msg_history"
          [("group_id", group_id); ("message_seq", PInt 0); ("count", PInt 20);
           ("reverseOrder", PBool false)] (make_headers tok).

Definition napcat_get_group_member_id_by_name (target_name group_id : pyval) : M pyval :=
  rep <- post (group_member_list_request group_id) ;;
  ret (or_none (scan_data (scan_members target_name) rep)).

Definition napcat_get_user_id_by_name (target_name group_id : pyval) : M pyval :=
  rep <- post friend_list_request ;;
  ret (or_none (scan_data (scan_friends target_name) rep)).

Definition napcat_get_group_id_by_name (target_name : pyval) : M pyval :=
  rep <- post group_list_request ;;
  ret (or_none (scan_data (scan_groups target_name) rep)).

Definition napcat_get_user_id_from_group_history_by_msg
    (poke_keywords group_id : pyval) : M pyval :=
  rep <- post (group_msg_history_request group_id) ;;
  ret (or_none (scan_history poke_keywords rep)).

End Stages.

(** ** [get_ids] *)

(** The first block of [get_ids]: the context group identifier, looked up in
    [message.message_info], [chat_stream], [action_data] and the object's own
    [group_id], in this order. *)
Definition context_group_id (self : ActivePokeAction) : pyval :=
  let group_id := PNone in
  let group_id :=
    match message self with
    | Some m =>
        match message_info m with
        | Some info => getattr_or_none (mi_group_id info)
        | None => group_id
        end
    | None => group_id
    end in
  let group_id :=
    if is_none group_id then
      match chat_stream self with
      | Some cs =>
          match cs_group_id cs with
          | Some g => g
          | None => group_id
          end
      | None => group_id
      end
    else group_id in
  let group_id :=
    if is_none group_id
    then dict_get_default (action_data self) "group_id" PNone
    else group_id in
  let group_id :=
    if is_none group_id then
      match own_group_id self with
      | Some g => if truthy g then g else group_id
      | None => group_id
      end
    else group_id in
  group_id.

Definition get_ids (self : ActivePokeAction) : M (pyval * pyval) :=
  let group_id := context_group_id self in
  let poke_keywords := dict_get_default (action_data self) "poke_keywords" PNone in
  if negb (truthy poke_keywords) then ret (PNone, group_id)
  else
    let host := napcat_host self in
    port <- lift (py_int (napcat_port self)) ;;
    let tok := token self in
    user_id <-
      (if truthy group_id then
         user_id <- napcat_get_user_id_from_group_history_by_msg
                      host port tok poke_keywords group_id ;;
         if negb (truthy user_id)
         then napcat_get_group_member_id_by_name host port tok poke_keywords group_id
         else ret user_id
       else napcat_get_user_id_by_name host port tok poke_keywords PNone) ;;
    group_id <-
      (if negb (truthy group_id)
       then napcat_get_group_id_by_name host port tok poke_keywords
       else ret group_id) ;;
    let user_id :=
      if negb (truthy user_id) then getattr_or_none (own_user_id self)
      else user_id in
    ret (user_id, group_id).

(** ** [send_poke] *)

Definition newline : string := String "010"%char "".

Definition send_poke_request (self : ActivePokeAction) (port : Z)
    (user_id group_id : pyval) : request :=
  Request (napcat_host self) port "/send_poke"
          (("user_id", user_id)
             :: (if is_none group_id then [] else [("group_id", group_id)]))
          (make_headers (token self)).

(** The first debug line, present when [poke_debug] is set. *)
Definition request_debug_msgs (self : ActivePokeAction)
    (user_id group_id : pyval) : list string :=
  if poke_debug self then
    ["戳一戳请求头: " ++ py_str (PDict (make_headers (token self)))
       ++ ", user_id: " ++ py_str user_id
       ++ ", group_id: " ++ py_str group_id]
  else [].

Definition error_info (e : exn) : pyval :=
  PDict [("error_type", PStr (error_type e));
         ("error_message", PStr (error_message e))].

(** The outer [except] of [send_poke]. *)
Definition send_failed (debug_msgs : list string) (e : exn) : bool * string :=
  (false, join newline (List.app debug_msgs ["戳一戳异常: " ++ py_str (error_info e)])).

Definition send_poke (self : ActivePokeAction) (user_id group_id : pyval)
  : M (bool * string) :=
  port <- lift (py_int (napcat_port self)) ;;
  let debug_msgs := request_debug_msgs self user_id group_id in
  rep <- post (send_poke_request self port user_id group_id) ;;
  match rep with
  | ConnFail e => ret (send_failed debug_msgs e)
  | BadUtf8 e => ret (send_failed debug_msgs e)
  | Body result loaded =>
      let debug_msgs :=
        List.app debug_msgs
          (if poke_debug self then ["戳一戳成功! 响应: " ++ result] else []) in
      match (data_json <~ loaded ;
             status <~ py_get data_json "status" PNone ;
             Ret (py_eq status (PStr "ok"),
                  join newline (List.app debug_msgs [py_str data_json]))) with
      | Ret out => ret out
      | Raise _ => ret (true, join newline (List.app debug_msgs [result]))
      end
  end.

(** ** [execute] *)

(** How the [try] block of [execute] ends: with one of its [return]
    statements, or past [send_poke] with [success] and [result] bound. *)
Inductive try_block : Type :=
| Returned (outcome : bool * string)
| Sent (success : bool) (result : string).

Definition self_target (self_id user_id : pyval) : bool :=
  truthy self_id && (py_str user_id =? py_str self_id)%string.

Definition clear_user_id (self : ActivePokeAction) : ActivePokeAction :=
  if dict_mem "user_id" (action_data self) then
    Action (message self) (chat_stream self)
           (dict_set "user_id" PNone (action_data self))
           (own_group_id self) (own_user_id self)
           (napcat_host self) (napcat_port self) (poke_debug self) (token self)
  else self.

(** [execute] from its call of [get_ids]: it returns the action object as it
    leaves it together with the outcome pair.  The configuration reload that
    opens the method rebinds [plugin_config], which nothing below reads, or
    raises; it is part of [Full.execute] below, and this definition is the
    method when [self.plugin] is unset. *)
Definition execute (self : ActivePokeAction)
  : M (ActivePokeAction * (bool * string)) :=
  '(user_id, group_id) <- get_ids self ;;
  let self_id := dict_get_default (action_data self) "self_id" PNone in
  blk <- try_except
           (if self_target self_id user_id
            then ret (Returned (false, "不能戳自己"))
            else '(success, result) <- send_poke self user_id group_id ;;
                 ret (Sent success result))
           (fun e => ret (Returned (false, "戳一戳操作异常: " ++ error_message e))) ;;
  match blk with
  | Returned outcome => ret (self, outcome)
  | Sent success result =>
      let self' := clear_user_id self in
      if success then ret (self', (true, "戳一戳操作成功"))
      else
        ret (self',
             (false,
              "戳一戳操作失败: "
                ++ (if (result =? "")%string then "未知错误" else result)))
  end.

(** ** The methods from their first statement

    Before its [try], a lookup and [send_poke] build their connection
    object, and before it calls [get_ids], [execute] reloads the
    configuration.  Both can raise, and they stand outside every [try] of
    their method.  The definitions above leave them aside; module [Full] has
    the methods with these statements.  For a host the connection object
    accepts and a reload that returns they come to the definitions above.
    ([json.dumps], which also stands before the [try], returns on every
    payload: its values are JSON values.) *)

Module Full.

(** The characters [http.client] refuses in a host:
    [_contains_disallowed_url_pchar_re], the class of bytes 0x00 to 0x20
    and 0x7f. *)
Definition disallowed_in_url (c : ascii) : bool :=
  let n := nat_of_ascii c in
  ((n <=? 32) || (n =? 127))%nat.

Fixpoint first_disallowed (host : string) : option ascii :=
  match host with
  | EmptyString => None
  | String c rest => if disallowed_in_url c then Some c else first_disallowed rest
  end.

Definition InvalidURL (host : string) (c : ascii) : exn :=
  Exn "InvalidURL"
      ("URL can't contain control characters. " ++ repr_str host
         ++ " (found at least " ++ repr_str (String c "") ++ ")").

(** [http.client.HTTPConnection(host, port)] with an integer port: no socket
    is opened, the host is validated. *)
Definition HTTPConnection (host : string) : result unit :=
  match first_disallowed host with
  | None => Ret tt
  | Some c => Raise (InvalidURL host c)
  end.

Section Lookups.

Variables (host : string) (port : Z) (tok : string).

Definition napcat_get_group_member_id_by_name (target_name group_id : pyval)
  : M pyval :=
  _ <- lift (HTTPConnection host) ;;
  rep <- post (group_member_list_request host port tok group_id) ;;
  ret (or_none (scan_data (scan_members target_name) rep)).

Definition napcat_get_user_id_by_name (target_name group_id : pyval) : M pyval :=
  _ <- lift (HTTPConnection host) ;;
  rep <- post (friend_list_request host port tok) ;;
  ret (or_none (scan_data (scan_friends target_name) rep)).

Definition napcat_get_group_id_by_name (target_name : pyval) : M pyval :=
  _ <- lift (HTTPConnection host) ;;
  rep <- post (group_list_request host port tok) ;;
  ret (or_none (scan_data (scan_groups target_name) rep)).

Definition napcat_get_user_id_from_group_history_by_msg
    (poke_keywords group_id : pyval) : M pyval :=
  _ <- lift (HTTPConnection host) ;;
  rep <- post (group_msg_history_request host port tok group_id) ;;
  ret (or_none (scan_history poke_keywords rep)).

End Lookups.

Definition get_ids (self : ActivePokeAction) : M (pyval * pyval) :=
  let group_id := context_group_id self in
  let poke_keywords := dict_get_default (action_data self) "poke_keywords" PNone in
  if negb (truthy poke_keywords) then ret (PNone, group_id)
  else
    let host := napcat_host self in
    port <- lift (py_int (napcat_port self)) ;;
    let tok := token self in
    user_id <-
      (if truthy group_id then
         user_id <- napcat_get_user_id_from_group_history_by_msg
                      host port tok poke_keywords group_id ;;
         if negb (truthy user_id)
         then napcat_get_group_member_id_by_name host port tok poke_keywords group_id
         else ret user_id
       else napcat_get_user_id_by_name host port tok poke_keywords PNone) ;;
    group_id <-
      (if negb (truthy group_id)
       then napcat_get_group_id_by_name host port tok poke_keywords
       else ret group_id) ;;
    let user_id :=
      if negb (truthy user_id) then getattr_or_none (own_user_id self)
      else user_id in
    ret (user_id, group_id).

Definition send_poke (self : ActivePokeAction) (user_id group_id : pyval)
  : M (bool * string) :=
  port <- lift (py_int (napcat_port self)) ;;
  _ <- lift (HTTPConnection (napcat_host self)) ;;
  let debug_msgs := request_debug_msgs self user_id group_id in
  rep <- post (send_poke_request self port user_id group_id) ;;
  match rep with
  | ConnFail e => ret (send_failed debug_msgs e)
  | BadUtf8 e => ret (send_failed debug_msgs e)
  | Body result loaded =>
      let debug_msgs :=
        List.app debug_msgs
          (if poke_debug self then ["戳一戳成功! 响应: " ++ result] else []) in
      match (data_json <~ loaded ;
             status <~ py_get data_json "status" PNone ;
             Ret (py_eq status (PStr "ok"),
                  join newline (List.app debug_msgs [py_str data_json]))) with
      | Ret out => ret out
      | Raise _ => ret (true, join newline (List.app debug_msgs [result]))
      end
  end.

(** How the block that opens [execute] ends.  It runs when [self.plugin] is
    set and has [_check_and_update_config_version]; the call of that method,
    [plugin.__file__], [plugin.config_file_name] and the path operations
    stand outside the [try] of the block, which covers [open] and
    [toml.load] only. *)
Inductive reload : Type :=
| Kept
    (** the block is skipped, there is no file, or loading raises:
        [plugin_config] stays as it is *)
| Rebound (config : pydict)
    (** [toml.load] returns [config], which [plugin_config] is bound to *)
| ReloadRaised (e : exn).
    (** a statement outside the [try] raises [e] *)

Definition reloaded (rl : reload) (plugin_config : pydict) : result pydict :=
  match rl with
  | Kept => Ret plugin_config
  | Rebound config => Ret config
  | ReloadRaised e => Raise e
  end.

(** [execute] returns the action object and its [plugin_config] as it leaves
    them, together with the outcome pair.  The attributes [__init__] copied
    out of the configuration are not read again after a reload. *)
Definition execute (rl : reload) (self : ActivePokeAction) (plugin_config : pydict)
  : M (ActivePokeAction * pydict * (bool * string)) :=
  plugin_config <- lift (reloaded rl plugin_config) ;;
  '(user_id, group_id) <- get_ids self ;;
  let self_id := dict_get_default (action_data self) "self_id" PNone in
  blk <- try_except
           (if self_target self_id user_id
            then ret (Returned (false, "不能戳自己"))
            else '(success, result) <- send_poke self user_id group_id ;;
                 ret (Sent success result))
           (fun e => ret (Returned (false, "戳一戳操作异常: " ++ error_message e))) ;;
  match blk with
  | Returned outcome => ret (self, plugin_config, outcome)
  | Sent success result =>
      let self' := clear_user_id self in
      if success then ret (self', plugin_config, (true, "戳一戳操作成功"))
      else
        ret (self', plugin_config,
             (false,
              "戳一戳操作失败: "
                ++ (if (result =? "")%string then "未知错误" else result)))
  end.

End Full.

(** Running a computation against a gateway, from an empty log. *)
Definition run {A} (m : M A) (gw : gateway) : result A * list request := m gw [].

Definition endpoints (log : list request) : list string := map endpoint log.

(** ** Views of a run *)

(** What [send_poke] returns once its request is made, as a function of the
    gateway's reply ([send_poke_run] below). *)
Definition send_result (self : ActivePokeAction) (user_id group_id : pyval)
    (rep : reply) : bool * string :=
  let debug_msgs := request_debug_msgs self user_id group_id in
  match rep with
  | ConnFail e => send_failed debug_msgs e
  | BadUtf8 e => send_failed debug_msgs e
  | Body result loaded =>
      let debug_msgs :=
        List.app debug_msgs
          (if poke_debug self then ["戳一戳成功! 响应: " ++ result] else []) in
      match loaded with
      | Ret (PDict d) =>
          (py_eq (dict_get_default d "status" PNone) (PStr "ok"),
           join newline (List.app debug_msgs [py_str (PDict d)]))
      | _ => (true, join newline (List.app debug_msgs [result]))
      end
  end.

(** [self.action_data.get("poke_keywords", None)] and
    [self.action_data.get("self_id", None)]. *)
Definition keywords (self : ActivePokeAction) : pyval :=
  dict_get_default (action_data self) "poke_keywords" PNone.

Definition self_id (self : ActivePokeAction) : pyval :=
  dict_get_default (action_data self) "self_id" PNone.

(** The ambient identity [getattr(self, 'user_id', None)] replaces a falsy
    result of the gateway stages. *)
Definition or_ambient (self : ActivePokeAction) (user_id : pyval) : pyval :=
  if negb (truthy user_id) then getattr_or_none (own_user_id self) else user_id.

(** The pair [execute] returns once [send_poke] has returned. *)
Definition report (sent : bool * string) : bool * string :=
  let '(success, result) := sent in
  if success then (true, "戳一戳操作成功")
  else (false,
        "戳一戳操作失败: " ++ (if (result =? "")%string then "未知错误" else result)).

(** What a run of [execute] returns to its caller, and the requests it made. *)
Definition outcome (r : result (ActivePokeAction * (bool * string)) * list request)
  : result (bool * string) :=
  match fst r with
  | Ret (_, out) => Ret out
  | Raise e => Raise e
  end.

Definition requests {A} (r : result A * list request) : list request := snd r.

(** A run of [execute] from its call of [get_ids], seen as a run of the
    whole method that leaves [plugin_config] bound to the given table. *)
Definition with_config (plugin_config : pydict)
    (r : result (ActivePokeAction * (bool * string)) * list request)
  : result (ActivePokeAction * pydict * (bool * string)) * list request :=
  match r with
  | (Ret (self', out), log) => (Ret (self', plugin_config, out), log)
  | (Raise e, log) => (Raise e, log)
  end.

(** ** The notions the properties are stated with *)

(** The criterion as the specification words it: the body parses as JSON and
    its [status] field is the string ["ok"]. *)
Definition json_status_ok (rep : reply) : bool :=
  match rep with
  | Body _ (Ret (PDict d)) => py_eq (dict_get_default d "status" PNone) (PStr "ok")
  | _ => false
  end.

(** The replies on which [send_poke] reports success. *)
Inductive success_reply : reply -> Prop :=
| success_unparsable (text : string) (e : exn) :
    success_reply (Body text (Raise e))
| success_not_an_object (text : string) (j : pyval) :
    (forall d, j <> PDict d) -> success_reply (Body text (Ret j))
| success_status_ok (text : string) (d : pydict) :
    dict_get_default d "status" PNone = PStr "ok" ->
    success_reply (Body text (Ret (PDict d))).

(** The four sources of the context group identifier, each read the way
    [get_ids] reads it, [None] standing for a missing one. *)
Definition from_message (self : ActivePokeAction) : pyval :=
  match message self with
  | Some m =>
      match message_info m with
      | Some info => getattr_or_none (mi_group_id info)
      | None => PNone
      end
  | None => PNone
  end.

Definition from_chat_stream (self : ActivePokeAction) : pyval :=
  match chat_stream self with
  | Some cs => getattr_or_none (cs_group_id cs)
  | None => PNone
  end.

Definition from_action_data (self : ActivePokeAction) : pyval :=
  dict_get_default (action_data self) "group_id" PNone.

Definition from_own_attribute (self : ActivePokeAction) : pyval :=
  getattr_or_none (own_group_id self).

Definition group_id_sources (self : ActivePokeAction) : list pyval :=
  [from_message self; from_chat_stream self; from_action_data self;
   from_own_attribute self].

(** The rule in the specification's words: the first source that is not
    [None]. *)
Fixpoint first_non_none (sources : list pyval) : pyval :=
  match sources with
  | [] => PNone
  | v :: rest => if is_none v then first_non_none rest else v
  end.

(** The fourth source as [get_ids] takes it: only when it is truthy. *)
Definition only_truthy (v : pyval) : pyval := if truthy v then v else PNone.

(** A string [repr] shows unchanged between its quotes: no backslash, no
    control character, and not both kinds of quote. *)
Definition kept (quote c : ascii) : bool :=
  (repr_char quote c =? String c "")%string.

Fixpoint all_kept (quote : ascii) (s : string) : bool :=
  match s with
  | EmptyString => true
  | String c s' => kept quote c && all_kept quote s'
  end.

Definition plain (s : string) : bool := all_kept (repr_quote s) s.

(** A stage swallows every gateway failure: on a reply that is not a JSON
    object with status ["ok"] it makes its request and returns [None]. *)
Definition absorbs_failures (stage : M pyval) (rq : request) : Prop :=
  forall (gw : gateway) (log : list request),
    json_status_ok (gw rq) = false ->
    stage gw log = (Ret PNone, (log ++ [rq])%list).

(** The messages of a history reply the scan gets to: the reply is a JSON
    object with status ["ok"] whose [data] is an object with a list under
    [messages]. *)
Definition returned_messages (rep : reply) : option (list pyval) :=
  match rep with
  | Body _ (Ret (PDict d)) =>
      if py_eq (dict_get_default d "status" PNone) (PStr "ok") then
        match dict_get "data" d with
        | Some (PDict data) =>
            match dict_get "messages" data with
            | Some (PList messages) => Some messages
            | _ => None
            end
        | _ => None
        end
      else None
  | _ => None
  end.

(** The text of a history message: its [raw_message], the empty text when
    the field is missing. *)
Definition text_of (msg : pyval) : option string :=
  match msg with
  | PDict d =>
      match dict_get_default d "raw_message" (PStr "") with
      | PStr s => Some s
      | _ => None
      end
  | _ => None
  end.

(** The sender identity of a history message: [sender.user_id], [None] when
    the message has no sender or the sender no [user_id]. *)
Definition sender_id_of (msg : pyval) : option pyval :=
  match msg with
  | PDict d =>
      match dict_get_default d "sender" (PDict []) with
      | PDict sender => Some (dict_get_default sender "user_id" PNone)
      | _ => None
      end
  | _ => None
  end.

(** The first message, in the returned order, whose text holds the keyword. *)
Definition first_mention (keyword : string) (messages : list pyval) : option pyval :=
  find (fun msg => match text_of msg with
                   | Some s => contains keyword s
                   | None => false
                   end) messages.

(** ** The sentences of the specification that the code departs from

    Each definition words one sentence as the specification states it, for
    one action and one gateway. *)

(** [send_poke] reports success if and only if the body parses as JSON and
    its status is ["ok"]. *)
Definition stated_success_criterion (self : ActivePokeAction)
    (user_id group_id : pyval) (gw : gateway) : Prop :=
  forall success result rq,
    run (send_poke self user_id group_id) gw = (Ret (success, result), [rq]) ->
    (success = true <-> json_status_ok (gw rq) = true).

(** If the resolved identity equals the [self_id] supplied in the action
    parameters, the outcome is the self-target one and nothing is sent. *)
Definition stated_self_target_rule (self : ActivePokeAction) (gw : gateway) : Prop :=
  forall user_id group_id log,
    run (get_ids self) gw = (Ret (user_id, group_id), log) ->
    dict_get "self_id" (action_data self) = Some user_id ->
    outcome (run (execute self) gw) = Ret (false, "不能戳自己") /\
    ~ In "/send_poke" (endpoints (requests (run (execute self) gw))).

(** With a known context group and a keyword that occurs in a returned
    history message, the resolver returns the sender of the first such
    message and does not call the member list. *)
Definition stated_history_rule (self : ActivePokeAction) (gw : gateway) : Prop :=
  forall keyword port messages m uid,
    keywords self = PStr keyword ->
    truthy (context_group_id self) = true ->
    py_int (napcat_port self) = Ret port ->
    returned_messages
      (gw (group_msg_history_request (napcat_host self) port (token self)
             (context_group_id self))) = Some messages ->
    first_mention keyword messages = Some m ->
    sender_id_of m = Some uid ->
    fst (run (get_ids self) gw) = Ret (uid, context_group_id self) /\
    ~ In "/get_group_member_list"
        (endpoints (requests (run (get_ids self) gw))).

(** Without a context group, the friend list is the only endpoint queried. *)
Definition stated_no_group_rule (self : ActivePokeAction) (gw : gateway) : Prop :=
  context_group_id self = PNone ->
  forall e, In e (endpoints (requests (run (get_ids self) gw))) ->
            e = "/get_friend_list".

(** If every stage fails, resolution returns no identity, with the context
    group if it is known. *)
Definition stated_failure_rule (self : ActivePokeAction) (gw : gateway) : Prop :=
  (forall rq, json_status_ok (gw rq) = false) ->
  fst (run (Full.get_ids self) gw) =
    Ret (PNone, only_truthy (context_group_id self)).

(** When resolution yields no identity, the action still invokes
    [/send_poke]. *)
Definition stated_unresolved_rule (self : ActivePokeAction) (gw : gateway) : Prop :=
  forall group_id log,
    run (get_ids self) gw = (Ret (PNone, group_id), log) ->
    In "/send_poke" (endpoints (requests (run (execute self) gw))).

(** The context group is the first source that is not [None]. *)
Definition stated_group_precedence (self : ActivePokeAction) : Prop :=
  context_group_id self = first_non_none (group_id_sources self).

(** ** Example gateways and actions *)

(** JSON text for a value, as a gateway could send it; used to give the
    example replies a body that matches what [json.loads] returns for it.
    Strings are expected to be free of control characters. *)
Fixpoint json_string_chars (s : string) : string :=
  match s with
  | EmptyString => ""
  | String c s' =>
      (if (c =? dquote)%char || (c =? backslash)%char
       then String backslash (String c "") else String c "")
        ++ json_string_chars s'
  end.

Definition json_string (s : string) : string :=
  String dquote (json_string_chars s ++ String dquote "").

Fixpoint json_text (v : pyval) : string :=
  match v with
  | PNone => "null"
  | PBool b => if b then "true" else "false"
  | PInt n => string_of_Z n
  | PStr s => json_string s
  | PList xs => "[" ++ join "," (map json_text xs) ++ "]"
  | PDict kvs =>
      "{" ++ join "," (map (fun '(k, v) => json_string k ++ ":" ++ json_text v) kvs)
          ++ "}"
  end.

(** A reply whose body is the JSON text of [v]. *)
Definition json_reply (v : pyval) : reply := Body (json_text v) (Ret v).

(** The exception of a refused connection. *)
Definition refused : exn :=
  Exn "ConnectionRefusedError" "[Errno 111] Connection refused".

(** No gateway is listening. *)
Definition down_gateway : gateway := fun _ => ConnFail refused.

(** A gateway whose lists are all empty and which accepts every poke. *)
Definition accepting_gateway : gateway := fun rq =>
  if (endpoint rq =? "/send_poke")%string
  then json_reply (PDict [("status", PStr "ok")])
  else json_reply (PDict [("status", PStr "ok"); ("data", PList [])]).

(** The gateway's answer to a poke it turns down. *)
Definition rejection : pyval :=
  PDict [("status", PStr "failed"); ("retcode", PInt 1200);
         ("message", PStr "user_id is required")].

(** A gateway whose lists are all empty and which answers every poke with
    [rejection]. *)
Definition rejecting_gateway : gateway := fun rq =>
  if (endpoint rq =? "/send_poke")%string then json_reply rejection
  else json_reply (PDict [("status", PStr "ok"); ("data", PList [])]).

(** The history of group 100: one message, "oh hello there", sent by 42. *)
Definition hello_history : pyval :=
  PDict [("status", PStr "ok");
         ("data",
          PDict [("messages",
                  PList [PDict [("raw_message", PStr "oh hello there");
                                ("sender", PDict [("user_id", PInt 42);
                                                  ("nickname", PStr "Restim")])]])])].

(** A gateway that serves this history and accepts every poke; its lists of
    members, friends and groups are empty. *)
Definition history_gateway : gateway := fun rq =>
  if (endpoint rq =? "/get_group_msg_history")%string then json_reply hello_history
  else if (endpoint rq =? "/send_poke")%string
       then json_reply (PDict [("status", PStr "ok")])
       else json_reply (PDict [("status", PStr "ok"); ("data", PList [])]).

(** The scenario of the action's own documentation: somebody writes
    "笨蛋小九揉揉揉揉" in group 100 and the keyword is that text. *)
Definition scenario_gateway : gateway := fun rq =>
  if (endpoint rq =? "/get_group_msg_history")%string then
    json_reply
      (PDict [("status", PStr "ok");
              ("data",
               PDict [("messages",
                       PList [PDict [("raw_message", PStr "笨蛋小九揉揉揉揉");
                                     ("sender", PDict [("user_id", PInt 12345);
                                                       ("nickname", PStr "Restim")])]])])])
  else down_gateway rq.

Definition scenario_action : ActivePokeAction :=
  Action None None
         [("poke_keywords", PStr "笨蛋小九揉揉揉揉"); ("group_id", PInt 100)]
         None None "127.0.0.1" (PStr "4999") false "".

(** The history of group 100 when an earlier message has no text: its
    [raw_message] is [null]. *)
Definition broken_history : list pyval :=
  [PDict [("raw_message", PNone); ("sender", PDict [("user_id", PInt 41)])];
   PDict [("raw_message", PStr "oh hello there");
          ("sender", PDict [("user_id", PInt 42)])]].

Definition broken_gateway : gateway := fun rq =>
  if (endpoint rq =? "/get_group_msg_history")%string then
    json_reply (PDict [("status", PStr "ok");
                       ("data", PDict [("messages", PList broken_history)])])
  else json_reply (PDict [("status", PStr "ok"); ("data", PList [])]).

(** An action in group 100 whose keyword is the empty text. *)
Definition empty_keyword_action : ActivePokeAction :=
  Action None None [("poke_keywords", PStr ""); ("group_id", PInt 100)]
         None None "127.0.0.1" (PStr "4999") false "".

(** The history of group 100 when the message that mentions "hello" comes
    from a sender whose [user_id] is 0, and a member list that has somebody
    called "hello kitty". *)
Definition anonymous_history : list pyval :=
  [PDict [("raw_message", PStr "good morning");
          ("sender", PDict [("user_id", PInt 41)])];
   PDict [("raw_message", PStr "oh hello there");
          ("sender", PDict [("user_id", PInt 0)])]].

(** A gateway serving [anonymous_history] and that member list. *)
Definition anonymous_gateway : gateway := fun rq =>
  if (endpoint rq =? "/get_group_msg_history")%string then
    json_reply (PDict [("status", PStr "ok");
                       ("data", PDict [("messages", PList anonymous_history)])])
  else if (endpoint rq =? "/get_group_member_list")%string then
    json_reply (PDict [("status", PStr "ok");
                       ("data", PList [PDict [("user_id", PInt 555);
                                              ("nickname", PStr "hello kitty");
                                              ("card", PStr "")]])])
  else json_reply (PDict [("status", PStr "ok"); ("data", PList [])]).

(** An action with no parameters at all. *)
Definition plain_action : ActivePokeAction :=
  Action None None [] None None "127.0.0.1" (PStr "4999") false "".

(** The error page of a proxy in front of the gateway: not JSON. *)
Definition bad_gateway_page : reply :=
  Body "<html>502 Bad Gateway</html>"
       (Raise (Exn "JSONDecodeError" "Expecting value: line 1 column 1 (char 0)")).

(** An action whose only group source is its own [group_id], set to 0. *)
Definition zero_group_action : ActivePokeAction :=
  Action None None [] (Some (PInt 0)) None "127.0.0.1" (PStr "4999") false "".

(** A private chat where the bot's identity is given as 0 and the ambient
    [user_id] is 0 too. *)
Definition zero_identity_action : ActivePokeAction :=
  Action None None [("poke_keywords", PStr "hello"); ("self_id", PInt 0)]
         None (Some (PInt 0)) "127.0.0.1" (PStr "4999") false "".

(** An action in group 100 looking for "hello", with a stale [user_id]
    entry left in its parameters. *)
Definition group_action (own_id : pyval) : ActivePokeAction :=
  Action None None
         [("poke_keywords", PStr "hello"); ("group_id", PInt 100);
          ("self_id", own_id); ("user_id", PInt 7)]
         None None "127.0.0.1" (PStr "4999") false "".

(** An action without keywords whose configured port is not a number. *)
Definition bad_port_action : ActivePokeAction :=
  Action None None [("user_id", PInt 7)] None None "127.0.0.1" (PStr "abc") false "".

(** A private chat: no group in any source. *)
Definition private_action : ActivePokeAction :=
  Action None None [("poke_keywords", PStr "hello")]
         None None "127.0.0.1" (PStr "4999") false "".

(** A private chat with an ambient [user_id], 777. *)
Definition ambient_action : ActivePokeAction :=
  Action None None [("poke_keywords", PStr "hello")]
         None (Some (PInt 777)) "127.0.0.1" (PStr "4999") false "".

(** A private chat whose configured host has a blank after the address. *)
Definition spaced_host_action : ActivePokeAction :=
  Action None None [("poke_keywords", PStr "hello")]
         None None "127.0.0.1 " (PStr "4999") false "".

(** An action without keywords whose [self_id] is the text ["None"]. *)
Definition none_named_action : ActivePokeAction :=
  Action None None [("self_id", PStr "None")]
         None None "127.0.0.1" (PStr "4999") false "".

(** * The rest of the action and of the plugin *)

(** ** Candidates of the list endpoints *)

(** The list a member, friend or group reply hands to the loop: the reply is
    a JSON object with status ["ok"] whose [data] is a list. *)
Definition returned_list (rep : reply) : option (list pyval) :=
  match rep with
  | Body _ (Ret (PDict d)) =>
      if py_eq (dict_get_default d "status" PNone) (PStr "ok") then
        match dict_get "data" d with
        | Some (PList items) => Some items
        | _ => None
        end
      else None
  | _ => None
  end.

(** The display names of a candidate: the values of [fields], the empty text
    for a missing one.  [None] when the candidate is not an object or one of
    the values is not text. *)
Fixpoint field_texts (fields : list string) (d : pydict) : option (list string) :=
  match fields with
  | [] => Some []
  | f :: rest =>
      match dict_get_default d f (PStr ""), field_texts rest d with
      | PStr s, Some texts => Some (s :: texts)
      | _, _ => None
      end
  end.

Definition names_of (fields : list string) (entry : pyval) : option (list string) :=
  match entry with
  | PDict d => field_texts fields d
  | _ => None
  end.

(** Whether one of the display names of a candidate holds the keyword. *)
Definition named (keyword : string) (fields : list string) (entry : pyval)
  : option bool :=
  option_map (existsb (contains keyword)) (names_of fields entry).

Definition member_fields : list string := ["nickname"; "card"; "remark"].
Definition friend_fields : list string := ["nickname"; "remark"].
Definition group_fields : list string := ["group_name"; "group_remark"].

(** The first candidate, in the order of the list, that has the keyword in
    one of its display names. *)
Definition first_named (keyword : string) (fields : list string)
    (items : list pyval) : option pyval :=
  find (fun x => match named keyword fields x with
                 | Some true => true
                 | _ => false
                 end) items.

(** [entry.get(key)] of a candidate that is an object. *)
Definition id_of (key : string) (entry : pyval) : pyval :=
  match entry with
  | PDict d => dict_get_default d key PNone
  | _ => PNone
  end.

(** A candidate the loop cannot read: it is not an object, or the first of
    its display names is [null]. *)
Definition unreadable (fields : list string) (entry : pyval) : Prop :=
  (forall d, entry <> PDict d) \/
  exists d f rest,
    entry = PDict d /\ fields = f :: rest /\ dict_get f d = Some PNone.

(** The history stage finds nobody: the reply is a failure, or no returned
    message holds the keyword. *)
Definition no_mention (keyword : string) (rep : reply) : Prop :=
  json_status_ok rep = false \/
  exists messages,
    returned_messages rep = Some messages /\
    Forall (fun x => exists s, text_of x = Some s /\ contains keyword s = false)
           messages.

(** ** The ways an execution ends *)

(** How a run of [execute] ends, by cases. *)
Inductive execution (self : ActivePokeAction) (gw : gateway)
  : result (ActivePokeAction * (bool * string)) * list request -> Prop :=
| resolution_raised (e : exn) (log : list request) :
    run (get_ids self) gw = (Raise e, log) ->
    execution self gw (Raise e, log)
| target_is_self (user_id group_id : pyval) (log : list request) :
    run (get_ids self) gw = (Ret (user_id, group_id), log) ->
    self_target (self_id self) user_id = true ->
    execution self gw (Ret (self, (false, "不能戳自己")), log)
| send_raised (user_id group_id : pyval) (log : list request) (e : exn) :
    run (get_ids self) gw = (Ret (user_id, group_id), log) ->
    self_target (self_id self) user_id = false ->
    py_int (napcat_port self) = Raise e ->
    execution self gw
      (Ret (self, (false, "戳一戳操作异常: " ++ error_message e)), log)
| poke_sent (user_id group_id : pyval) (log : list request) (port : Z) :
    run (get_ids self) gw = (Ret (user_id, group_id), log) ->
    self_target (self_id self) user_id = false ->
    py_int (napcat_port self) = Ret port ->
    let rq := send_poke_request self port user_id group_id in
    execution self gw
      (Ret (clear_user_id self, report (send_result self user_id group_id (gw rq))),
       (log ++ [rq])%list).

(** ** More example gateways *)

(** Group 100 has a quiet history and one member called "hello kitty". *)
Definition members_gateway : gateway := fun rq =>
  if (endpoint rq =? "/get_group_msg_history")%string then
    json_reply
      (PDict [("status", PStr "ok");
              ("data",
               PDict [("messages",
                       PList [PDict [("raw_message", PStr "good morning");
                                     ("sender", PDict [("user_id", PInt 41)])]])])])
  else if (endpoint rq =? "/get_group_member_list")%string then
    json_reply (PDict [("status", PStr "ok");
                       ("data", PList [PDict [("user_id", PInt 41);
                                              ("nickname", PStr "Alice");
                                              ("card", PStr "")];
                                       PDict [("user_id", PInt 555);
                                              ("nickname", PStr "kitty");
                                              ("card", PStr "hello kitty")]])])
  else json_reply (PDict [("status", PStr "ok"); ("data", PList [])]).

(** A friend remarked "hello bob" and a group named "hello world". *)
Definition friends_gateway : gateway := fun rq =>
  if (endpoint rq =? "/get_friend_list")%string then
    json_reply (PDict [("status", PStr "ok");
                       ("data", PList [PDict [("user_id", PInt 900);
                                              ("nickname", PStr "Carol")];
                                       PDict [("user_id", PInt 901);
                                              ("nickname", PStr "Bob");
                                              ("remark", PStr "hello bob")]])])
  else if (endpoint rq =? "/get_group_list")%string then
    json_reply (PDict [("status", PStr "ok");
                       ("data", PList [PDict [("group_id", PInt 300);
                                              ("group_name", PStr "hello world")]])])
  else json_reply (PDict [("status", PStr "ok")]).

(** The member list of group 100 when an entry before "hello kitty" has a
    [null] nickname; the history is empty. *)
Definition null_member_gateway : gateway := fun rq =>
  if (endpoint rq =? "/get_group_member_list")%string then
    json_reply (PDict [("status", PStr "ok");
                       ("data", PList [PDict [("user_id", PInt 41);
                                              ("nickname", PNone)];
                                       PDict [("user_id", PInt 555);
                                              ("nickname", PStr "hello kitty")]])])
  else if (endpoint rq =? "/get_group_msg_history")%string then
    json_reply (PDict [("status", PStr "ok");
                       ("data", PDict [("messages", PList [])])])
  else json_reply (PDict [("status", PStr "ok"); ("data", PList [])]).

(** An action in group 100 with debugging on and a token, "secret". *)
Definition token_action : ActivePokeAction :=
  Action None None
         [("poke_keywords", PStr "hello"); ("group_id", PInt 100)]
         None None "127.0.0.1" (PStr "4999") true "secret".

(** ** The helpers of the plugin class *)

(** [match_poke_keyword]: the one pattern, ["戳我"], has no special
    character and no cased letter, so [re.search] with [re.IGNORECASE] is the
    search for it as a substring. *)
Definition match_poke_keyword (text : string) : option string :=
  find (fun kw => contains kw text) ["戳我"].

(** White space for [str.strip]: the characters [str.isspace] accepts, in
    their UTF-8 encoding (one, two or three bytes). *)
Definition space1 (c : ascii) : bool :=
  let n := nat_of_ascii c in
  (((9 <=? n) && (n <=? 13)) || ((28 <=? n) && (n <=? 32)))%nat.

Definition space2 (c1 c2 : ascii) : bool :=
  let n1 := nat_of_ascii c1 in
  let n2 := nat_of_ascii c2 in
  ((n1 =? 194) && ((n2 =? 133) || (n2 =? 160)))%nat.

Definition space3 (c1 c2 c3 : ascii) : bool :=
  let n1 := nat_of_ascii c1 in
  let n2 := nat_of_ascii c2 in
  let n3 := nat_of_ascii c3 in
  (((n1 =? 225) && (n2 =? 154) && (n3 =? 128))
   || ((n1 =? 226) && (n2 =? 128)
       && (((128 <=? n3) && (n3 <=? 138)) || (n3 =? 168) || (n3 =? 169)
           || (n3 =? 175)))
   || ((n1 =? 226) && (n2 =? 129) && (n3 =? 159))
   || ((n1 =? 227) && (n2 =? 128) && (n3 =? 128)))%nat.

(** [s.lstrip()] *)
Fixpoint str_lstrip (s : string) : string :=
  match s with
  | EmptyString => ""
  | String c1 rest1 =>
      if space1 c1 then str_lstrip rest1
      else
        match rest1 with
        | EmptyString => s
        | String c2 rest2 =>
            if space2 c1 c2 then str_lstrip rest2
            else
              match rest2 with
              | EmptyString => s
              | String c3 rest3 =>
                  if space3 c1 c2 c3 then str_lstrip rest3 else s
              end
        end
  end.

(** [s.rstrip()]: the text up to the point from which only white space
    follows. *)
Fixpoint str_rstrip (s : string) : string :=
  match s with
  | EmptyString => ""
  | String c rest =>
      if (str_lstrip s =? "")%string then "" else String c (str_rstrip rest)
  end.

(** [s.strip()] *)
Definition str_strip (s : string) : string := str_rstrip (str_lstrip s).

(** Lower case on the ASCII letters.  [str.lower] changes other letters as
    well, but what it makes of a text is one of the ASCII words
    [_to_bool] looks for exactly when this function makes it that word: the
    only character outside ASCII that [lower] maps into ASCII is the Kelvin
    sign, to [k], which none of the words has. *)
Definition lower_char (c : ascii) : ascii :=
  let n := nat_of_ascii c in
  if ((65 <=? n) && (n <=? 90))%nat then ascii_of_nat (n + 32) else c.

Fixpoint lower_ascii (s : string) : string :=
  match s with
  | EmptyString => ""
  | String c rest => String (lower_char c) (lower_ascii rest)
  end.

(** [PokePlugin._to_bool] *)
Definition _to_bool (v : pyval) : bool :=
  match v with
  | PBool b => b
  | PInt n => negb (n =? 0)
  | PStr s =>
      existsb (String.eqb (lower_ascii (str_strip s))) ["true"; "1"; "yes"; "on"]
  | _ => truthy v
  end.

(** A text made of white space only. *)
Definition blank (s : string) : Prop := str_lstrip s = "".

(** A byte of a visible ASCII character: below 128 and not white space. *)
Definition solid (c : ascii) : bool :=
  negb (space1 c) && (nat_of_ascii c <? 128)%nat.

Fixpoint all_solid (s : string) : bool :=
  match s with
  | EmptyString => true
  | String c rest => solid c && all_solid rest
  end.

(** The words [_to_bool] reads as true. *)
Definition true_words : list string := ["true"; "1"; "yes"; "on"].

(** ** The history lookup by name or text *)

(** The message loop of [napcat_get_user_id_from_group_history]: a message
    matches by the nickname or the card of its sender as well as by its
    text. *)
Fixpoint scan_messages_by_name (target_name : pyval) (messages : list pyval)
  : result pyval :=
  match messages with
  | [] => Ret PNone
  | msg :: rest =>
      sender <~ py_get msg "sender" (PDict []) ;
      nickname <~ py_get sender "nickname" (PStr "") ;
      card <~ py_get sender "card" (PStr "") ;
      raw_message <~ py_get msg "raw_message" (PStr "") ;
      hit <~ or_else (py_in target_name nickname)
               (or_else (py_in target_name card) (py_in target_name raw_message)) ;
      if hit : bool then py_get sender "user_id" PNone
      else scan_messages_by_name target_name rest
  end.

(** Its [try] body: the guard and the list are those of [scan_history]. *)
Definition scan_history_by_name (target_name : pyval) (rep : reply) : result pyval :=
  data_json <~ read_json rep ;
  status <~ py_get data_json "status" PNone ;
  if py_eq status (PStr "ok") then
    data <~ py_get data_json "data" (PDict []) ;
    messages <~ py_get data "messages" (PList []) ;
    if is_list messages then
      data' <~ py_getitem data_json "data" ;
      items <~ py_getitem data' "messages" ;
      for_each items (scan_messages_by_name target_name)
    else Ret PNone
  else Ret PNone.

Definition napcat_get_user_id_from_group_history
    (host : string) (port : Z) (tok : string) (target_name group_id : pyval)
  : M pyval :=
  rep <- post (group_msg_history_request host port tok group_id) ;;
  ret (or_none (scan_history_by_name target_name rep)).

(** Whether the nickname or the card of the sender of a message holds the
    keyword; [None] when the sender is not an object or a name is not text. *)
Definition sender_named (keyword : string) (msg : pyval) : option bool :=
  match msg with
  | PDict d => named keyword ["nickname"; "card"] (dict_get_default d "sender" (PDict []))
  | _ => None
  end.

(** A history where Restim, whose nickname holds "Rest", wrote before the
    message that holds it. *)
Definition names_history : list pyval :=
  [PDict [("raw_message", PStr "good morning");
          ("sender", PDict [("user_id", PInt 41); ("nickname", PStr "Restim")])];
   PDict [("raw_message", PStr "Rest a bit");
          ("sender", PDict [("user_id", PInt 42); ("nickname", PStr "Alice")])]].

Definition names_gateway : gateway := fun _ =>
  json_reply (PDict [("status", PStr "ok");
                     ("data", PDict [("messages", PList names_history)])]).

(** * Properties *)

(** ** Basic facts about the Python layer *)

(** [int] reads digits and white space of any script, allows single
    underscores between digits, and refuses a literal of more than 4300
    digits, with an error of its own. *)
Example int_examples :
  py_int (PStr " 4999 ") = Ret 4999 /\
  py_int (PStr "４９９９") = Ret 4999 /\
  py_int (PStr "　-٤٩") = Ret (-49) /\
  py_int (PStr "4_999") = Ret 4999 /\
  read_literal "4__999" = Invalid /\
  read_literal "4 9" = Invalid /\
  read_literal "4999é" = Invalid /\
  (exists n, read_literal (N.iter 4300 (String "1") "") = Integer n) /\
  read_literal (N.iter 4301 (String "1") "x") = TooLong 4301.
Proof.
  repeat split; try (vm_compute; reflexivity).
  vm_compute. eexists. reflexivity.
Qed.

Lemma py_eq_str (v : pyval) (s : string) :
  py_eq v (PStr s) = true <-> v = PStr s.
Proof.
  destruct v; simpl; split; intros H; try discriminate; try congruence.
  - apply String.eqb_eq in H. now subst.
  - injection H as ->. apply String.eqb_refl.
Qed.

Lemma prefix_nil (s : string) : prefix "" s = true.
Proof. now destruct s. Qed.

Lemma prefix_app (x b : string) : prefix x (x ++ b) = true.
Proof.
  induction x as [|c x IH]; simpl; [apply prefix_nil|].
  destruct (ascii_dec c c); [exact IH | congruence].
Qed.

Lemma prefix_split (x s : string) :
  prefix x s = true -> exists b, s = x ++ b.
Proof.
  revert s; induction x as [|c x IH]; intros s H.
  - now exists s.
  - destruct s as [|c' s]; [discriminate|]. simpl in H.
    destruct (ascii_dec c c') as [->|]; [|discriminate].
    destruct (IH _ H) as [b ->]. now exists b.
Qed.

Lemma append_assoc (a b c : string) : (a ++ b) ++ c = a ++ b ++ c.
Proof. induction a as [|x a IH]; simpl; [reflexivity | now rewrite IH]. Qed.

(** [contains] is the substring relation. *)
Lemma contains_spec (x s : string) :
  contains x s = true <-> exists a b, s = a ++ x ++ b.
Proof.
  split.
  - induction s as [|c s IH]; intros H.
    + cbn [contains] in H. destruct (prefix x "") eqn:E; [|discriminate].
      destruct (prefix_split _ _ E) as [b Hb]. now exists "", b.
    + cbn [contains] in H. destruct (prefix x (String c s)) eqn:E.
      * destruct (prefix_split _ _ E) as [b Hb]. now exists "", b.
      * destruct (IH H) as (a & b & ->). now exists (String c a), b.
  - intros (a & b & ->). induction a as [|c a IH].
    + change ("" ++ x ++ b) with (x ++ b).
      destruct (x ++ b) eqn:E; cbn [contains]; rewrite <- E, prefix_app;
        reflexivity.
    + change (String c a ++ x ++ b) with (String c (a ++ x ++ b)).
      cbn [contains]. rewrite IH.
      now destruct (prefix x (String c (a ++ x ++ b))).
Qed.

Lemma contains_intro (x a b : string) : contains x (a ++ x ++ b) = true.
Proof. apply contains_spec. now exists a, b. Qed.

Lemma append_nil_r (s : string) : s ++ "" = s.
Proof. induction s as [|c s IH]; simpl; [reflexivity | now rewrite IH]. Qed.

Lemma contains_refl (x : string) : contains x x = true.
Proof. apply contains_spec. exists "", "". cbn. now rewrite append_nil_r. Qed.

Lemma contains_app_l (x a s : string) :
  contains x s = true -> contains x (a ++ s) = true.
Proof.
  intros H. apply contains_spec in H as (u & v & ->).
  rewrite <- append_assoc. apply contains_intro.
Qed.

Lemma contains_app_r (x s b : string) :
  contains x s = true -> contains x (s ++ b) = true.
Proof.
  intros H. apply contains_spec in H as (u & v & ->).
  rewrite !append_assoc. apply contains_intro.
Qed.

Lemma join_snoc (sep : string) (parts : list string) (last : string) :
  exists before, join sep (parts ++ [last]) = before ++ last.
Proof.
  induction parts as [|p parts IH]; [now exists ""|].
  destruct IH as [before IH]. cbn [List.app join].
  destruct (parts ++ [last])%list eqn:E.
  - now destruct parts.
  - rewrite IH. exists (p ++ sep ++ before). now rewrite !append_assoc.
Qed.

(** ** Running [send_poke] and [execute] *)

Lemma send_poke_run (self : ActivePokeAction) (user_id group_id : pyval)
    (port : Z) (gw : gateway) (log : list request) :
  py_int (napcat_port self) = Ret port ->
  let rq := send_poke_request self port user_id group_id in
  send_poke self user_id group_id gw log =
    (Ret (send_result self user_id group_id (gw rq)), (log ++ [rq])%list).
Proof.
  intros Hport rq. unfold send_poke, send_result, bind, lift, post.
  rewrite Hport. fold rq.
  destruct (gw rq) as [e|e|text [j|e]]; try reflexivity.
  destruct j; reflexivity.
Qed.

Lemma send_poke_bad_port (self : ActivePokeAction) (user_id group_id : pyval)
    (e : exn) (gw : gateway) (log : list request) :
  py_int (napcat_port self) = Raise e ->
  send_poke self user_id group_id gw log = (Raise e, log).
Proof. intros H. unfold send_poke, bind, lift. now rewrite H. Qed.

(** ** The success criterion of [send_poke] *)

(** The gateway answers with a body that is not JSON: [json.loads] raises,
    the inner [except] of [send_poke] returns [True] with the raw body. *)
Example send_poke_unparsable_run :
  json_status_ok bad_gateway_page = false /\
  run (send_poke plain_action (PInt 12345) PNone) (fun _ => bad_gateway_page) =
    (Ret (true, "<html>502 Bad Gateway</html>"),
     [send_poke_request plain_action 4999 (PInt 12345) PNone]).
Proof. split; reflexivity. Qed.




(** ** The context group identifier *)

(** The only source is the object's own [group_id], and it is [0]: the first
    source that is not [None].  The test [self.group_id] is false for it and
    the identifier stays [None]. *)
Example context_group_id_zero_run :
  first_non_none (group_id_sources zero_group_action) = PInt 0 /\
  context_group_id zero_group_action = PNone.
Proof. split; reflexivity. Qed.

(** Counterexample to C10: an own [group_id] of 0 is not taken. *)
Lemma context_group_id_skips_zero : ~ stated_group_precedence zero_group_action.
Proof. unfold stated_group_precedence. cbn. discriminate. Qed.

(** C10, amended: the context group identifier is the first source that is
    not [None] in the order [message.message_info.group_id],
    [chat_stream.group_id], [action_data["group_id"]], own [group_id], where
    the last one counts only when it is truthy. *)
Theorem context_group_id_precedence (self : ActivePokeAction) :
  context_group_id self =
    first_non_none
      [from_message self; from_chat_stream self; from_action_data self;
       only_truthy (from_own_attribute self)].
Proof.
  unfold context_group_id, from_message, from_chat_stream, from_action_data,
    from_own_attribute, only_truthy.
  cbn [first_non_none].
  destruct (match message self with
            | Some m => match message_info m with
                        | Some info => getattr_or_none (mi_group_id info)
                        | None => PNone
                        end
            | None => PNone
            end) eqn:E1; cbn [is_none]; try reflexivity.
  destruct (chat_stream self) as [[[g|]]|]; cbn [cs_group_id getattr_or_none].
  1: destruct g; cbn [is_none]; try reflexivity.
  all: destruct (dict_get_default (action_data self) "group_id" PNone);
    cbn [is_none]; try reflexivity.
  all: destruct (own_group_id self) as [g'|]; cbn [getattr_or_none is_none];
    try reflexivity.
  all: destruct (truthy g') eqn:T; [|reflexivity].
  all: destruct g'; try reflexivity; discriminate.
Qed.

(** ** Running [get_ids] *)

Section GetIds.

Variables (self : ActivePokeAction) (gw : gateway) (log : list request).

Let host := napcat_host self.
Let tok := token self.
Let group_id := context_group_id self.

Lemma get_ids_no_keywords :
  truthy (keywords self) = false ->
  get_ids self gw log = (Ret (PNone, group_id), log).
Proof.
  intros H. unfold get_ids. fold (keywords self). now rewrite H.
Qed.

Lemma get_ids_bad_port (e : exn) :
  truthy (keywords self) = true ->
  py_int (napcat_port self) = Raise e ->
  get_ids self gw log = (Raise e, log).
Proof.
  intros Hk Hp. unfold get_ids. fold (keywords self). rewrite Hk.
  cbn [negb]. cbv [bind lift]. now rewrite Hp.
Qed.

(** With a group in context: the history stage, then the member stage when
    the history stage yields nothing truthy. *)
Lemma get_ids_in_group (port : Z) :
  truthy (keywords self) = true ->
  py_int (napcat_port self) = Ret port ->
  truthy group_id = true ->
  let history := group_msg_history_request host port tok group_id in
  let members := group_member_list_request host port tok group_id in
  let from_history := or_none (scan_history (keywords self) (gw history)) in
  let from_members := or_none (scan_data (scan_members (keywords self)) (gw members)) in
  get_ids self gw log =
    if truthy from_history
    then (Ret (from_history, group_id), (log ++ [history])%list)
    else (Ret (or_ambient self from_members, group_id),
          (log ++ [history; members])%list).
Proof.
  intros Hk Hp Hg history members from_history from_members.
  unfold get_ids. fold (keywords self). rewrite Hk. cbn [negb].
  fold group_id. rewrite Hg. cbn [negb].
  cbv [bind lift ret post napcat_get_user_id_from_group_history_by_msg
         napcat_get_group_member_id_by_name].
  rewrite Hp. fold host tok history. fold from_history.
  unfold or_ambient.
  destruct (truthy from_history) eqn:T; cbn [negb].
  - now rewrite T.
  - fold members. fold from_members. now rewrite <- app_assoc.
Qed.

(** Without a group in context: the friend stage, then the group list. *)
Lemma get_ids_no_group (port : Z) :
  truthy (keywords self) = true ->
  py_int (napcat_port self) = Ret port ->
  truthy group_id = false ->
  let friends := friend_list_request host port tok in
  let groups := group_list_request host port tok in
  let from_friends := or_none (scan_data (scan_friends (keywords self)) (gw friends)) in
  let from_groups := or_none (scan_data (scan_groups (keywords self)) (gw groups)) in
  get_ids self gw log =
    (Ret (or_ambient self from_friends, from_groups),
     (log ++ [friends; groups])%list).
Proof.
  intros Hk Hp Hg friends groups from_friends from_groups.
  unfold get_ids. fold (keywords self). rewrite Hk. cbn [negb].
  fold group_id. rewrite Hg. cbn [negb].
  cbv [bind lift ret post napcat_get_user_id_by_name
         napcat_get_group_id_by_name].
  rewrite Hp. fold host tok friends groups. fold from_friends from_groups.
  unfold or_ambient. now rewrite <- app_assoc.
Qed.

End GetIds.

(** Closes [~ In x l] for a literal [x] and a list [l] of other literals. *)
Ltac not_listed :=
  cbn [In]; let F := fresh "F" in
  intros F; repeat (destruct F as [F|F]; [discriminate F|]); exact F.

(** The requests [get_ids] makes name one of four endpoint sequences. *)
Lemma get_ids_endpoints (self : ActivePokeAction) (gw : gateway)
    (r : result (pyval * pyval)) (log : list request) :
  run (get_ids self) gw = (r, log) ->
  endpoints log = []
  \/ endpoints log = ["/get_group_msg_history"]
  \/ endpoints log = ["/get_group_msg_history"; "/get_group_member_list"]
  \/ endpoints log = ["/get_friend_list"; "/get_group_list"].
Proof.
  unfold run. intros H.
  destruct (truthy (keywords self)) eqn:Hk.
  2: { rewrite get_ids_no_keywords in H by assumption.
       injection H as _ <-. now left. }
  destruct (py_int (napcat_port self)) as [port|e] eqn:Hp.
  2: { rewrite (get_ids_bad_port _ _ _ Hk Hp) in H.
       injection H as _ <-. now left. }
  destruct (truthy (context_group_id self)) eqn:Hg.
  - rewrite (get_ids_in_group _ gw [] Hk Hp Hg) in H.
    match type of H with
    | (if ?c then _ else _) = _ => destruct c
    end; injection H as _ <-; auto.
  - rewrite (get_ids_no_group _ gw [] Hk Hp Hg) in H.
    injection H as _ <-. auto.
Qed.

Lemma get_ids_never_sends (self : ActivePokeAction) (gw : gateway)
    (r : result (pyval * pyval)) (log : list request) :
  run (get_ids self) gw = (r, log) ->
  ~ In "/send_poke" (endpoints log).
Proof.
  intros H. destruct (get_ids_endpoints _ _ H) as [E|[E|[E|E]]];
    rewrite E; not_listed.
Qed.

(** ** Running [execute] *)

Section Execute.

Variables (self : ActivePokeAction) (gw : gateway).
Variables (user_id group_id : pyval) (log : list request).

Hypothesis resolved : run (get_ids self) gw = (Ret (user_id, group_id), log).

Lemma execute_self_target :
  self_target (self_id self) user_id = true ->
  run (execute self) gw = (Ret (self, (false, "不能戳自己")), log).
Proof.
  intros Hs. unfold run in *. unfold execute.
  cbv [bind try_except ret]. rewrite resolved.
  fold (self_id self). now rewrite Hs.
Qed.

Lemma execute_bad_port (e : exn) :
  self_target (self_id self) user_id = false ->
  py_int (napcat_port self) = Raise e ->
  run (execute self) gw =
    (Ret (self, (false, "戳一戳操作异常: " ++ error_message e)), log).
Proof.
  intros Hs Hp. unfold run in *. unfold execute.
  cbv [bind try_except ret]. rewrite resolved.
  fold (self_id self). rewrite Hs.
  now rewrite (send_poke_bad_port self user_id group_id gw log Hp).
Qed.

Lemma execute_sends (port : Z) :
  self_target (self_id self) user_id = false ->
  py_int (napcat_port self) = Ret port ->
  let rq := send_poke_request self port user_id group_id in
  run (execute self) gw =
    (Ret (clear_user_id self, report (send_result self user_id group_id (gw rq))),
     (log ++ [rq])%list).
Proof.
  intros Hs Hp rq. unfold run in *. unfold execute.
  cbv [bind try_except ret]. rewrite resolved.
  fold (self_id self). rewrite Hs.
  rewrite (send_poke_run self user_id group_id gw log Hp). fold rq.
  destruct (send_result self user_id group_id (gw rq)) as [[] result];
    reflexivity.
Qed.

End Execute.

Lemma execute_raises (self : ActivePokeAction) (gw : gateway) (e : exn)
    (log : list request) :
  run (get_ids self) gw = (Raise e, log) ->
  run (execute self) gw = (Raise e, log).
Proof.
  unfold run, execute. cbv [bind]. now intros ->.
Qed.

(** A request to [/send_poke] in the log of [execute] tells how the run went:
    resolution returned, the guard let the target through and the port was
    usable. *)
Lemma execute_sends_inv (self : ActivePokeAction) (gw : gateway) :
  In "/send_poke" (endpoints (requests (run (execute self) gw))) ->
  exists user_id group_id log port,
    run (get_ids self) gw = (Ret (user_id, group_id), log) /\
    self_target (self_id self) user_id = false /\
    py_int (napcat_port self) = Ret port /\
    let rq := send_poke_request self port user_id group_id in
    run (execute self) gw =
      (Ret (clear_user_id self, report (send_result self user_id group_id (gw rq))),
       (log ++ [rq])%list).
Proof.
  intros Hsent.
  destruct (run (get_ids self) gw) as [[[user_id group_id]|e] log] eqn:Hres.
  2: { rewrite (execute_raises _ _ Hres) in Hsent.
       now destruct (get_ids_never_sends _ _ Hres). }
  destruct (self_target (self_id self) user_id) eqn:Hs.
  { rewrite (execute_self_target _ _ Hres Hs) in Hsent.
    now destruct (get_ids_never_sends _ _ Hres). }
  destruct (py_int (napcat_port self)) as [port|e] eqn:Hp.
  2: { rewrite (execute_bad_port _ _ Hres Hs Hp) in Hsent.
       now destruct (get_ids_never_sends _ _ Hres). }
  exists user_id, group_id, log, port.
  repeat split; try assumption. exact (execute_sends _ _ Hres Hs Hp).
Qed.

(** ** The self-target guard *)

Lemma self_target_spec (sid uid : pyval) :
  self_target sid uid = true <-> truthy sid = true /\ py_str uid = py_str sid.
Proof.
  unfold self_target. rewrite andb_true_iff, String.eqb_eq. reflexivity.
Qed.

(** An unresolved target passes the guard unless [self_id] is the text
    ["None"], the string form of an absent identity. *)
Lemma self_target_unresolved (sid : pyval) :
  self_target sid PNone = true <-> sid = PStr "None".
Proof.
  rewrite self_target_spec. split.
  - intros [T E]. destruct sid as [| b | n | s | xs | d]; cbn in *;
      try discriminate; try congruence.
    + now destruct b.
    + exfalso. unfold string_of_Z in E.
      destruct n as [|p|p]; cbn in E; try discriminate.
      destruct (Pos.to_uint p); cbn in E; discriminate.
  - intros ->. now split.
Qed.

(** [self_id] is supplied as [0] and the resolved identity, the ambient
    one, is [0] as well.  The guard tests [self_id] for truth first, so the
    poke is sent and reported as a success. *)
Example self_target_zero_run :
  dict_get "self_id" (action_data zero_identity_action) = Some (PInt 0) /\
  run (get_ids zero_identity_action) accepting_gateway =
    (Ret (PInt 0, PNone),
     [friend_list_request "127.0.0.1" 4999 "";
      group_list_request "127.0.0.1" 4999 ""]) /\
  run (execute zero_identity_action) accepting_gateway =
    (Ret (zero_identity_action, (true, "戳一戳操作成功")),
     [friend_list_request "127.0.0.1" 4999 "";
      group_list_request "127.0.0.1" 4999 "";
      send_poke_request zero_identity_action 4999 (PInt 0) PNone]).
Proof. repeat split; reflexivity. Qed.

(** Counterexample to C3: a supplied [self_id] of 0 equal to the resolved
    identity is not rejected. *)
Lemma self_target_zero_is_poked :
  ~ stated_self_target_rule zero_identity_action accepting_gateway.
Proof.
  intros H. destruct self_target_zero_run as (Hsid & Hids & Hrun).
  destruct (H _ _ _ Hids Hsid) as [Hout _].
  rewrite Hrun in Hout. discriminate Hout.
Qed.

(** C3, amended: in every execution where the [self_id] supplied in the
    action parameters is truthy and the resolved identity equals it, no
    request goes to [/send_poke] and the action returns
    [(False, "不能戳自己")]. *)
Theorem self_target_is_rejected (self : ActivePokeAction) (gw : gateway)
    (user_id group_id : pyval) (log : list request) :
  run (get_ids self) gw = (Ret (user_id, group_id), log) ->
  truthy (self_id self) = true ->
  user_id = self_id self ->
  run (execute self) gw = (Ret (self, (false, "不能戳自己")), log) /\
  ~ In "/send_poke" (endpoints log).
Proof.
  intros Hres Ht ->. split.
  - apply (execute_self_target _ _ Hres). now apply self_target_spec.
  - exact (get_ids_never_sends _ _ Hres).
Qed.

Lemma self_target_is_rejected_witness :
  run (execute (group_action (PInt 42))) history_gateway =
    (Ret (group_action (PInt 42), (false, "不能戳自己")),
     [group_msg_history_request "127.0.0.1" 4999 "" (PInt 100)]) /\
  ~ In "/send_poke"
      (endpoints [group_msg_history_request "127.0.0.1" 4999 "" (PInt 100)]).
Proof.
  exact (@self_target_is_rejected (group_action (PInt 42)) history_gateway
           (PInt 42) (PInt 100) _ eq_refl eq_refl eq_refl).
Defined.

Lemma report_not_self_target (sent : bool * string) :
  report sent <> (false, "不能戳自己").
Proof.
  destruct sent as [[] result]; cbn; [discriminate|].
  destruct (result =? "")%string; discriminate.
Qed.

(** The comparison is on string forms: the identity 42 found in the history
    is the bot's when [self_id] is the text "42". *)
Example self_target_by_string_form :
  run (execute (group_action (PStr "42"))) history_gateway =
    (Ret (group_action (PStr "42"), (false, "不能戳自己")),
     [group_msg_history_request "127.0.0.1" 4999 "" (PInt 100)]).
Proof. reflexivity. Qed.



(** ** Failure messages *)

Lemma repr_chars_kept (quote : ascii) (s : string) :
  all_kept quote s = true -> repr_chars quote s = s.
Proof.
  induction s as [|c s IH]; cbn [all_kept repr_chars]; [reflexivity|].
  intros H. apply andb_true_iff in H as [Hc Hs].
  apply String.eqb_eq in Hc. now rewrite Hc, IH.
Qed.

Lemma repr_str_plain (s : string) :
  plain s = true -> contains s (repr_str s) = true.
Proof.
  intros H. unfold repr_str. rewrite (repr_chars_kept _ _ H).
  exact (contains_intro s (String (repr_quote s) "") (String (repr_quote s) "")).
Qed.

Lemma contains_trans (a b c : string) :
  contains a b = true -> contains b c = true -> contains a c = true.
Proof.
  intros Hab Hbc. apply contains_spec in Hbc as (u & v & ->).
  now apply contains_app_l, contains_app_r.
Qed.

Lemma error_info_str (e : exn) :
  py_str (error_info e) =
    "{'error_type': " ++ repr_str (error_type e)
      ++ ", 'error_message': " ++ repr_str (error_message e) ++ "}".
Proof.
  cbn [py_str error_info py_repr map join].
  change (repr_str "error_type") with "'error_type'".
  change (repr_str "error_message") with "'error_message'".
  now rewrite !append_assoc.
Qed.

(** The report on a failed connection: the failure prefix, the debug lines
    and the rendering of [error_info]. *)
Lemma report_send_failed (debug_msgs : list string) (e : exn) :
  exists before,
    report (send_failed debug_msgs e) =
      (false, "戳一戳操作失败: " ++ before ++ "戳一戳异常: " ++ py_str (error_info e)).
Proof.
  unfold send_failed, report.
  destruct (join_snoc newline debug_msgs ("戳一戳异常: " ++ py_str (error_info e)))
    as [before ->].
  exists before.
  replace (before ++ "戳一戳异常: " ++ py_str (error_info e) =? "")%string
    with false; [reflexivity|].
  now destruct before.
Qed.

Lemma error_info_mentions (e : exn) :
  contains ("'error_type': " ++ repr_str (error_type e)) (py_str (error_info e)) = true /\
  contains ("'error_message': " ++ repr_str (error_message e)) (py_str (error_info e)) = true.
Proof.
  rewrite error_info_str. split; apply contains_spec.
  - exists "{", (", 'error_message': " ++ repr_str (error_message e) ++ "}").
    now rewrite append_assoc.
  - exists ("{'error_type': " ++ repr_str (error_type e) ++ ", "), "}".
    now rewrite !append_assoc.
Qed.

(** C7: when [execute] gets as far as the request to [/send_poke] and the
    connection fails with an exception [e], [execute] returns, and what it
    returns is [False] with a message that holds [type(e).__name__] and
    [str(e)] in the form the [error_info] dict prints them; for a type name
    and a text that [repr] shows unchanged the message holds them verbatim. *)
Theorem send_poke_connection_failure (self : ActivePokeAction) (gw : gateway)
    (e : exn) :
  In "/send_poke" (endpoints (requests (run (execute self) gw))) ->
  (forall rq, endpoint rq = "/send_poke" -> gw rq = ConnFail e) ->
  exists message,
    outcome (run (execute self) gw) = Ret (false, message) /\
    contains ("'error_type': " ++ repr_str (error_type e)) message = true /\
    contains ("'error_message': " ++ repr_str (error_message e)) message = true /\
    (plain (error_type e) = true -> contains (error_type e) message = true) /\
    (plain (error_message e) = true -> contains (error_message e) message = true).
Proof.
  intros Hsent Hfail.
  destruct (execute_sends_inv _ _ Hsent)
    as (user_id & group_id & log & port & _ & _ & _ & ->).
  rewrite (Hfail (send_poke_request self port user_id group_id) eq_refl).
  unfold outcome. cbn [fst send_result].
  destruct (report_send_failed (request_debug_msgs self user_id group_id) e)
    as [before ->].
  eexists. split; [reflexivity|].
  destruct (error_info_mentions e) as [Htype Hmessage].
  assert (Hin : forall x, contains x (py_str (error_info e)) = true ->
                contains x ("戳一戳操作失败: " ++ before ++ "戳一戳异常: "
                              ++ py_str (error_info e)) = true).
  { intros x Hx. now do 3 apply contains_app_l. }
  repeat split.
  - now apply Hin.
  - now apply Hin.
  - intros Hplain. apply Hin. eapply contains_trans; [|exact Htype].
    apply contains_app_l. now apply repr_str_plain.
  - intros Hplain. apply Hin. eapply contains_trans; [|exact Hmessage].
    apply contains_app_l. now apply repr_str_plain.
Qed.

Lemma send_poke_connection_failure_witness :
  exists message,
    outcome (run (execute (group_action (PInt 10001))) down_gateway)
      = Ret (false, message) /\
    contains "'error_type': 'ConnectionRefusedError'" message = true /\
    contains "'error_message': '[Errno 111] Connection refused'" message = true /\
    contains "ConnectionRefusedError" message = true /\
    contains "[Errno 111] Connection refused" message = true.
Proof.
  destruct (@send_poke_connection_failure (group_action (PInt 10001))
              down_gateway refused)
    as (message & Hout & Htype & Htext & Hplain_type & Hplain_text).
  - vm_compute. tauto.
  - reflexivity.
  - exists message. repeat split; try assumption.
    + exact (Hplain_type eq_refl).
    + exact (Hplain_text eq_refl).
Defined.

(** ** An unresolved target *)

(** The report on a reply that parses to an object with a status other than
    ["ok"] holds the printed object. *)
Lemma report_rejected (debug_msgs : list string) (d : pydict) :
  exists message,
    report (false, join newline (List.app debug_msgs [py_str (PDict d)]))
      = (false, message) /\
    contains (py_str (PDict d)) message = true.
Proof.
  unfold report.
  destruct (join_snoc newline debug_msgs (py_str (PDict d))) as [before ->].
  assert (Hne : (before ++ py_str (PDict d) =? "")%string = false).
  { destruct before; reflexivity. }
  rewrite Hne. eexists. split; [reflexivity|].
  apply contains_app_l, contains_app_l, contains_refl.
Qed.

(** An action whose [self_id] is the text ["None"] resolves nobody and is
    taken for its own target: nothing is sent. *)
Example self_named_none_run :
  run (get_ids none_named_action) accepting_gateway = (Ret (PNone, PNone), []) /\
  run (execute none_named_action) accepting_gateway =
    (Ret (none_named_action, (false, "不能戳自己")), []).
Proof. split; reflexivity. Qed.




(** ** The stale [user_id] parameter *)

Lemma dict_get_set (k : string) (v : pyval) (d : pydict) :
  dict_get k (dict_set k v d) = Some v.
Proof.
  induction d as [|[k' v'] d IH]; cbn [dict_set dict_get].
  - now rewrite String.eqb_refl.
  - destruct (k =? k')%string eqn:E; cbn [dict_get]; now rewrite E.
Qed.

(** Past [send_poke], a [user_id] entry of [action_data] is [None]. *)
Lemma clear_user_id_clears (self : ActivePokeAction) :
  dict_mem "user_id" (action_data self) = true ->
  dict_get "user_id" (action_data (clear_user_id self)) = Some PNone.
Proof.
  intros H. unfold clear_user_id. rewrite H. cbn [action_data].
  apply dict_get_set.
Qed.

(** Whenever the request to [/send_poke] is made, whatever the gateway
    answers, [execute] leaves the [user_id] entry cleared. *)
Lemma execute_clears_after_send (self : ActivePokeAction) (gw : gateway) :
  In "/send_poke" (endpoints (requests (run (execute self) gw))) ->
  dict_mem "user_id" (action_data self) = true ->
  exists self' out,
    fst (run (execute self) gw) = Ret (self', out) /\
    dict_get "user_id" (action_data self') = Some PNone.
Proof.
  intros Hsent Hmem.
  destruct (execute_sends_inv _ _ Hsent)
    as (user_id & group_id & log & port & _ & _ & _ & ->).
  do 2 eexists.
  split; [reflexivity|]. now apply clear_user_id_clears.
Qed.

(** C2, the code at the failing inputs.  The target found in the history of
    group 100 is the bot itself (42): [execute] returns from inside the [try]
    block and the [user_id] entry still holds 7.  With a port that [int]
    rejects, [send_poke] raises, the [except] branch returns, and the entry
    still holds 7 as well. *)
Theorem early_return_keeps_user_id :
  dict_get "user_id" (action_data (group_action (PInt 42))) = Some (PInt 7) /\
  run (execute (group_action (PInt 42))) history_gateway =
    (Ret (group_action (PInt 42), (false, "不能戳自己")),
     [group_msg_history_request "127.0.0.1" 4999 "" (PInt 100)]) /\
  dict_get "user_id" (action_data bad_port_action) = Some (PInt 7) /\
  run (execute bad_port_action) history_gateway =
    (Ret (bad_port_action,
          (false, "戳一戳操作异常: invalid literal for int() with base 10: 'abc'")),
     []).
Proof. repeat split; reflexivity. Qed.

(** ** Resolution without a group in context *)

(** No group is in context, and the resolver queries the group list after
    the friend list. *)
Example no_group_run :
  context_group_id private_action = PNone /\
  endpoints (requests (run (get_ids private_action) accepting_gateway)) =
    ["/get_friend_list"; "/get_group_list"].
Proof. split; reflexivity. Qed.




(** ** The connection object and the reload

    What the methods of [Full] come to, in terms of the definitions without
    the connection object and the reload. *)

(** With keywords and a port [int] accepts, the first lookup of [get_ids]
    raises what its connection object raises, before any request. *)
Lemma full_get_ids_spec (self : ActivePokeAction) (gw : gateway) (log : list request) :
  Full.get_ids self gw log =
    if truthy (keywords self) then
      match py_int (napcat_port self), Full.HTTPConnection (napcat_host self) with
      | Ret _, Raise e => (Raise e, log)
      | _, _ => get_ids self gw log
      end
    else get_ids self gw log.
Proof.
  unfold Full.get_ids, get_ids, keywords.
  destruct (truthy (dict_get_default (action_data self) "poke_keywords" PNone));
    cbn [negb]; [|reflexivity].
  unfold Full.napcat_get_user_id_from_group_history_by_msg,
    Full.napcat_get_group_member_id_by_name, Full.napcat_get_user_id_by_name,
    Full.napcat_get_group_id_by_name,
    napcat_get_user_id_from_group_history_by_msg,
    napcat_get_group_member_id_by_name, napcat_get_user_id_by_name,
    napcat_get_group_id_by_name.
  cbv [bind lift ret post].
  destruct (py_int (napcat_port self)) as [port|e]; [|reflexivity].
  destruct (Full.HTTPConnection (napcat_host self)) as [[]|e].
  - reflexivity.
  - now destruct (truthy (context_group_id self)).
Qed.

(** [send_poke] converts the port first, then builds its connection
    object. *)
Lemma full_send_poke_spec (self : ActivePokeAction) (user_id group_id : pyval)
    (gw : gateway) (log : list request) :
  Full.send_poke self user_id group_id gw log =
    match py_int (napcat_port self), Full.HTTPConnection (napcat_host self) with
    | Ret _, Raise e => (Raise e, log)
    | _, _ => send_poke self user_id group_id gw log
    end.
Proof.
  unfold Full.send_poke, send_poke. cbv [bind lift ret post].
  destruct (py_int (napcat_port self)) as [port|e]; [|reflexivity].
  now destruct (Full.HTTPConnection (napcat_host self)) as [[]|e].
Qed.

Lemma full_get_ids_accepted (self : ActivePokeAction) (gw : gateway)
    (log : list request) :
  Full.HTTPConnection (napcat_host self) = Ret tt ->
  Full.get_ids self gw log = get_ids self gw log.
Proof.
  intros H. rewrite full_get_ids_spec, H.
  destruct (truthy (keywords self)); [|reflexivity].
  now destruct (py_int (napcat_port self)).
Qed.

Lemma full_send_poke_accepted (self : ActivePokeAction) (user_id group_id : pyval)
    (gw : gateway) (log : list request) :
  Full.HTTPConnection (napcat_host self) = Ret tt ->
  Full.send_poke self user_id group_id gw log = send_poke self user_id group_id gw log.
Proof.
  intros H. rewrite full_send_poke_spec, H.
  now destruct (py_int (napcat_port self)).
Qed.

(** What the reload raises leaves [execute] at once. *)
Lemma full_execute_reload_raised (rl : Full.reload) (self : ActivePokeAction)
    (plugin_config : pydict) (gw : gateway) (log : list request) (e : exn) :
  Full.reloaded rl plugin_config = Raise e ->
  Full.execute rl self plugin_config gw log = (Raise e, log).
Proof. intros H. unfold Full.execute. cbv [bind lift]. now rewrite H. Qed.

(** Past the reload and with a host the connection object accepts,
    [execute] is the definition without them. *)
Lemma full_execute_accepted (rl : Full.reload) (self : ActivePokeAction)
    (plugin_config config : pydict) (gw : gateway) (log : list request) :
  Full.reloaded rl plugin_config = Ret config ->
  Full.HTTPConnection (napcat_host self) = Ret tt ->
  Full.execute rl self plugin_config gw log = with_config config (execute self gw log).
Proof.
  intros Hrl Hc. unfold Full.execute, execute. cbv [bind lift try_except ret].
  rewrite Hrl, (full_get_ids_accepted self gw log Hc).
  destruct (get_ids self gw log) as [[[user_id group_id]|e] log1]; [|reflexivity].
  destruct (self_target _ user_id); [reflexivity|].
  rewrite (full_send_poke_accepted self user_id group_id gw log1 Hc).
  destruct (send_poke self user_id group_id gw log1) as [[[[] result]|e] log2];
    reflexivity.
Qed.

(** With a host the connection object rejects: [get_ids] lets the exception
    through when there are keywords; without keywords it is [send_poke] that
    raises, inside the [try] of [execute], which reports it. *)
Lemma full_execute_rejected (rl : Full.reload) (self : ActivePokeAction)
    (plugin_config config : pydict) (gw : gateway) (log : list request) (e : exn) :
  Full.reloaded rl plugin_config = Ret config ->
  Full.HTTPConnection (napcat_host self) = Raise e ->
  let raised := match py_int (napcat_port self) with
                | Ret _ => e
                | Raise e' => e'
                end in
  Full.execute rl self plugin_config gw log =
    if truthy (keywords self) then (Raise raised, log)
    else if self_target (self_id self) PNone
         then (Ret (self, config, (false, "不能戳自己")), log)
         else (Ret (self, config,
                    (false, "戳一戳操作异常: " ++ error_message raised)), log).
Proof.
  intros Hrl Hc raised. unfold Full.execute. cbv [bind lift try_except ret].
  rewrite Hrl, full_get_ids_spec, Hc.
  destruct (truthy (keywords self)) eqn:Hk.
  - subst raised. destruct (py_int (napcat_port self)) as [port|e'] eqn:Hp;
      [reflexivity|].
    now rewrite (get_ids_bad_port self gw log Hk Hp).
  - rewrite (get_ids_no_keywords self gw log Hk). fold (self_id self).
    destruct (self_target (self_id self) PNone); [reflexivity|].
    rewrite full_send_poke_spec, Hc. subst raised.
    destruct (py_int (napcat_port self)) as [port|e'] eqn:Hp; [reflexivity|].
    now rewrite (send_poke_bad_port self PNone (context_group_id self) gw log Hp).
Qed.

(** ** Gateway failures during resolution *)

Lemma scan_data_failure (scan : list pyval -> result pyval) (rep : reply) :
  json_status_ok rep = false -> or_none (scan_data scan rep) = PNone.
Proof.
  unfold scan_data. destruct rep as [e|e|text [j|e]]; try reflexivity.
  destruct j; try reflexivity. cbn. now intros ->.
Qed.

Lemma scan_history_failure (poke_keywords : pyval) (rep : reply) :
  json_status_ok rep = false -> or_none (scan_history poke_keywords rep) = PNone.
Proof.
  unfold scan_history. destruct rep as [e|e|text [j|e]]; try reflexivity.
  destruct j; try reflexivity. cbn. now intros ->.
Qed.

Lemma stages_absorb_failures (host : string) (port : Z) (tok : string)
    (keyword group_id : pyval) :
  absorbs_failures
    (napcat_get_user_id_from_group_history_by_msg host port tok keyword group_id)
    (group_msg_history_request host port tok group_id) /\
  absorbs_failures
    (napcat_get_group_member_id_by_name host port tok keyword group_id)
    (group_member_list_request host port tok group_id) /\
  absorbs_failures
    (napcat_get_user_id_by_name host port tok keyword PNone)
    (friend_list_request host port tok) /\
  absorbs_failures
    (napcat_get_group_id_by_name host port tok keyword)
    (group_list_request host port tok).
Proof.
  repeat split; intros gw log H;
    cbv [napcat_get_user_id_from_group_history_by_msg
         napcat_get_group_member_id_by_name napcat_get_user_id_by_name
         napcat_get_group_id_by_name bind post ret];
    now rewrite ?scan_data_failure, ?scan_history_failure by assumption.
Qed.

(** From the first [try] on, with a port that [int] accepts, [get_ids]
    returns whatever the gateway does. *)
Lemma get_ids_returns (self : ActivePokeAction) (gw : gateway) (port : Z) :
  py_int (napcat_port self) = Ret port ->
  exists ids, fst (run (get_ids self) gw) = Ret ids.
Proof.
  intros Hp. unfold run.
  destruct (truthy (keywords self)) eqn:Hk.
  2: { rewrite (get_ids_no_keywords _ gw [] Hk). now eexists. }
  destruct (truthy (context_group_id self)) eqn:Hg.
  - rewrite (get_ids_in_group _ gw [] Hk Hp Hg).
    match goal with |- context [if ?c then _ else _] => destruct c end;
      now eexists.
  - rewrite (get_ids_no_group _ gw [] Hk Hp Hg). now eexists.
Qed.

Lemma full_stages_accepted (host : string) (port : Z) (tok : string)
    (keyword group_id : pyval) (gw : gateway) (log : list request) :
  Full.HTTPConnection host = Ret tt ->
  Full.napcat_get_user_id_from_group_history_by_msg host port tok keyword group_id
      gw log
    = napcat_get_user_id_from_group_history_by_msg host port tok keyword group_id
        gw log /\
  Full.napcat_get_group_member_id_by_name host port tok keyword group_id gw log
    = napcat_get_group_member_id_by_name host port tok keyword group_id gw log /\
  Full.napcat_get_user_id_by_name host port tok keyword group_id gw log
    = napcat_get_user_id_by_name host port tok keyword group_id gw log /\
  Full.napcat_get_group_id_by_name host port tok keyword gw log
    = napcat_get_group_id_by_name host port tok keyword gw log.
Proof.
  intros H.
  cbv [Full.napcat_get_user_id_from_group_history_by_msg
       Full.napcat_get_group_member_id_by_name Full.napcat_get_user_id_by_name
       Full.napcat_get_group_id_by_name
       napcat_get_user_id_from_group_history_by_msg
       napcat_get_group_member_id_by_name napcat_get_user_id_by_name
       napcat_get_group_id_by_name bind lift post ret].
  rewrite H. repeat split.
Qed.

(** An exception leaves [Full.get_ids] exactly when there are keywords and
    [int] or the connection object raises it. *)
Lemma full_get_ids_raises (self : ActivePokeAction) (gw : gateway) (e : exn) :
  fst (run (Full.get_ids self) gw) = Raise e <->
  truthy (keywords self) = true /\
  (py_int (napcat_port self) = Raise e \/
   (exists port, py_int (napcat_port self) = Ret port) /\
   Full.HTTPConnection (napcat_host self) = Raise e).
Proof.
  unfold run. rewrite full_get_ids_spec.
  destruct (truthy (keywords self)) eqn:Hk.
  2: { rewrite (get_ids_no_keywords self gw [] Hk).
       split; [discriminate | now intros [? _]]. }
  destruct (py_int (napcat_port self)) as [port|e0] eqn:Hp.
  - destruct (Full.HTTPConnection (napcat_host self)) as [[]|e1] eqn:Hc.
    + destruct (get_ids_returns self gw Hp) as [ids Hids]. unfold run in Hids.
      rewrite Hids. split; [discriminate|].
      intros (_ & [H | [_ H]]); discriminate H.
    + cbn [fst]. split.
      * intros [= ->]. split; [reflexivity|]. right. split; [now exists port | reflexivity].
      * intros (_ & [H | [_ H]]); [discriminate H | now injection H as ->].
  - rewrite (get_ids_bad_port self gw [] Hk Hp). cbn [fst]. split.
    + intros [= ->]. split; [reflexivity | now left].
    + intros (_ & [H | [[port H] _]]); [now injection H as -> | discriminate H].
Qed.

(** No gateway is listening, so every stage fails, and resolution returns
    the ambient identity [self.user_id]. *)
Example failed_resolution_run :
  (forall rq, json_status_ok (down_gateway rq) = false) /\
  run (Full.get_ids ambient_action) down_gateway =
    (Ret (PInt 777, PNone),
     [friend_list_request "127.0.0.1" 4999 "";
      group_list_request "127.0.0.1" 4999 ""]).
Proof. split; reflexivity. Qed.


(** A host with a blank in it: the first lookup raises when it builds its
    connection object, before any request, and [get_ids] lets the exception
    through. *)
Example rejected_host_run :
  run (Full.get_ids spaced_host_action) accepting_gateway =
    (Raise (Exn "InvalidURL"
                "URL can't contain control characters. '127.0.0.1 ' (found at least ' ')"),
     []).
Proof. reflexivity. Qed.



(** ** A keyword found in the group history *)

Lemma scan_history_returned (poke_keywords : pyval) (rep : reply)
    (messages : list pyval) :
  returned_messages rep = Some messages ->
  scan_history poke_keywords rep = scan_messages poke_keywords messages.
Proof.
  unfold returned_messages, scan_history.
  destruct rep as [e|e|text [j|e]]; try discriminate.
  destruct j as [| | | | |d]; try discriminate. cbn [read_json rbind py_get].
  destruct (py_eq (dict_get_default d "status" PNone) (PStr "ok")); [|discriminate].
  unfold dict_get_default, py_getitem.
  destruct (dict_get "data" d) as [[| | | | |data]|]; try discriminate.
  cbn [rbind py_get]. unfold dict_get_default.
  destruct (dict_get "messages" data) as [[| | | |xs|]|]; try discriminate.
  now intros [= ->].
Qed.

Lemma scan_messages_first (keyword raw : string) (before after : list pyval)
    (m uid : pyval) :
  Forall (fun x => exists s, text_of x = Some s /\ contains keyword s = false) before ->
  text_of m = Some raw ->
  contains keyword raw = true ->
  sender_id_of m = Some uid ->
  scan_messages (PStr keyword) (before ++ m :: after) = Ret uid.
Proof.
  intros Hbefore Htext Hin Hsender.
  induction Hbefore as [|x before (s & Hs & Hno) _ IH]; cbn [List.app scan_messages].
  - destruct m as [| | | | |d]; try discriminate.
    cbn [text_of sender_id_of] in *. cbn [py_get rbind].
    destruct (dict_get_default d "raw_message" (PStr "")); try discriminate.
    injection Htext as ->. cbn [py_in rbind]. rewrite Hin.
    destruct (dict_get_default d "sender" (PDict [])); try discriminate.
    injection Hsender as <-. reflexivity.
  - destruct x as [| | | | |d]; try discriminate.
    cbn [text_of] in Hs. cbn [py_get rbind].
    destruct (dict_get_default d "raw_message" (PStr "")); try discriminate.
    injection Hs as ->. cbn [py_in rbind]. rewrite Hno. exact IH.
Qed.

Example scenario_resolves_sender :
  run (get_ids scenario_action) scenario_gateway =
    (Ret (PInt 12345, PInt 100),
     [group_msg_history_request "127.0.0.1" 4999 "" (PInt 100)]).
Proof. reflexivity. Qed.

(** Group 100 is in context and the keyword "hello" occurs in a returned
    message, whose sender has [user_id] 0.  [get_ids] tests the identity for
    truth, goes on to the member list and returns the member it finds there. *)
Example falsy_sender_run :
  context_group_id (group_action (PInt 10001)) = PInt 100 /\
  keywords (group_action (PInt 10001)) = PStr "hello" /\
  returned_messages
    (anonymous_gateway (group_msg_history_request "127.0.0.1" 4999 "" (PInt 100)))
    = Some anonymous_history /\
  first_mention "hello" anonymous_history =
    Some (PDict [("raw_message", PStr "oh hello there");
                 ("sender", PDict [("user_id", PInt 0)])]) /\
  run (get_ids (group_action (PInt 10001))) anonymous_gateway =
    (Ret (PInt 555, PInt 100),
     [group_msg_history_request "127.0.0.1" 4999 "" (PInt 100);
      group_member_list_request "127.0.0.1" 4999 "" (PInt 100)]).
Proof. repeat split; reflexivity. Qed.


(** The other conditions of the amended statement are needed as well.  An
    empty keyword occurs in every text, and [get_ids] returns before any
    stage; a message without text before the match makes the [in] test raise,
    which ends the scan with no match. *)
Example empty_keyword_run :
  contains "" "oh hello there" = true /\
  run (get_ids empty_keyword_action) history_gateway = (Ret (PNone, PInt 100), []).
Proof. split; reflexivity. Qed.

Example broken_history_run :
  first_mention "hello" broken_history =
    Some (PDict [("raw_message", PStr "oh hello there");
                 ("sender", PDict [("user_id", PInt 42)])]) /\
  run (get_ids (group_action (PInt 10001))) broken_gateway =
    (Ret (PNone, PInt 100),
     [group_msg_history_request "127.0.0.1" 4999 "" (PInt 100);
      group_member_list_request "127.0.0.1" 4999 "" (PInt 100)]).
Proof. split; reflexivity. Qed.



(** * Further properties of the action *)

(** ** The list lookups *)

Lemma scan_data_returned (scan : list pyval -> result pyval) (rep : reply)
    (items : list pyval) :
  returned_list rep = Some items -> scan_data scan rep = scan items.
Proof.
  unfold returned_list, scan_data.
  destruct rep as [e|e|text [j|e]]; try discriminate.
  destruct j as [| | | | |d]; try discriminate. cbn [read_json rbind py_get].
  destruct (py_eq (dict_get_default d "status" PNone) (PStr "ok")); [|discriminate].
  unfold dict_get_default, py_getitem.
  destruct (dict_get "data" d) as [[| | | |xs|]|]; try discriminate.
  now intros [= ->].
Qed.

Lemma or_else_ret (a b : bool) : or_else (Ret a) (Ret b) = Ret (a || b).
Proof. now destruct a. Qed.

Lemma scan_members_step (keyword : string) (x : pyval) (rest : list pyval) (b : bool) :
  named keyword member_fields x = Some b ->
  scan_members (PStr keyword) (x :: rest) =
    if b then Ret (id_of "user_id" x) else scan_members (PStr keyword) rest.
Proof.
  destruct x as [| | | | |d]; try discriminate.
  unfold named, names_of, member_fields. cbn [field_texts scan_members py_get rbind].
  destruct (dict_get_default d "nickname" (PStr "")); try discriminate.
  destruct (dict_get_default d "card" (PStr "")); try discriminate.
  destruct (dict_get_default d "remark" (PStr "")); try discriminate.
  cbn [option_map existsb py_in]. intros [= <-].
  rewrite !or_else_ret, orb_false_r. cbn [rbind id_of].
  now destruct (_ || _).
Qed.

Lemma scan_friends_step (keyword : string) (x : pyval) (rest : list pyval) (b : bool) :
  named keyword friend_fields x = Some b ->
  scan_friends (PStr keyword) (x :: rest) =
    if b then Ret (id_of "user_id" x) else scan_friends (PStr keyword) rest.
Proof.
  destruct x as [| | | | |d]; try discriminate.
  unfold named, names_of, friend_fields. cbn [field_texts scan_friends py_get rbind].
  destruct (dict_get_default d "nickname" (PStr "")); try discriminate.
  destruct (dict_get_default d "remark" (PStr "")); try discriminate.
  cbn [option_map existsb py_in]. intros [= <-].
  rewrite !or_else_ret, orb_false_r. cbn [rbind id_of].
  now destruct (_ || _).
Qed.

Lemma scan_groups_step (keyword : string) (x : pyval) (rest : list pyval) (b : bool) :
  named keyword group_fields x = Some b ->
  scan_groups (PStr keyword) (x :: rest) =
    if b then Ret (id_of "group_id" x) else scan_groups (PStr keyword) rest.
Proof.
  destruct x as [| | | | |d]; try discriminate.
  unfold named, names_of, group_fields. cbn [field_texts scan_groups py_get rbind].
  destruct (dict_get_default d "group_name" (PStr "")); try discriminate.
  destruct (dict_get_default d "group_remark" (PStr "")); try discriminate.
  cbn [option_map existsb py_in]. intros [= <-].
  rewrite !or_else_ret, orb_false_r. cbn [rbind id_of].
  now destruct (_ || _).
Qed.

(** What the three loops share: candidates are tried in the order of the
    list, the first one with a matching name decides, and one that is not a
    well-formed record ends the loop with an exception. *)
Section Scan.

Variables (scan : pyval -> list pyval -> result pyval).
Variables (fields : list string) (key : string).

Hypothesis scan_nil : forall target, scan target [] = Ret PNone.

Hypothesis scan_step : forall keyword x rest b,
  named keyword fields x = Some b ->
  scan (PStr keyword) (x :: rest) =
    if b then Ret (id_of key x) else scan (PStr keyword) rest.

Hypothesis scan_unreadable : forall keyword x rest,
  unreadable fields x -> exists e, scan (PStr keyword) (x :: rest) = Raise e.

Lemma scan_skips (keyword : string) (before rest : list pyval) :
  Forall (fun x => named keyword fields x = Some false) before ->
  scan (PStr keyword) (before ++ rest) = scan (PStr keyword) rest.
Proof.
  induction 1 as [|x before Hx _ IH]; [reflexivity|].
  cbn [List.app]. now rewrite (@scan_step keyword x (before ++ rest) false Hx).
Qed.

Lemma scan_first (keyword : string) (before after : list pyval) (m : pyval) :
  Forall (fun x => named keyword fields x = Some false) before ->
  named keyword fields m = Some true ->
  scan (PStr keyword) (before ++ m :: after) = Ret (id_of key m).
Proof.
  intros Hbefore Hm. rewrite (@scan_skips keyword before _ Hbefore).
  now rewrite (@scan_step keyword m after true Hm).
Qed.

Lemma scan_none (keyword : string) (items : list pyval) :
  Forall (fun x => named keyword fields x = Some false) items ->
  scan (PStr keyword) items = Ret PNone.
Proof.
  intros H. rewrite <- (app_nil_r items), (@scan_skips keyword items [] H).
  apply scan_nil.
Qed.

Lemma scan_find (keyword : string) (items : list pyval) :
  Forall (fun x => named keyword fields x <> None) items ->
  scan (PStr keyword) items =
    Ret match first_named keyword fields items with
        | Some m => id_of key m
        | None => PNone
        end.
Proof.
  unfold first_named.
  induction 1 as [|x items Hx _ IH]; [apply scan_nil|]. cbn [find].
  destruct (named keyword fields x) as [[]|] eqn:E; [| |contradiction].
  - now rewrite (@scan_step keyword x items true E).
  - now rewrite (@scan_step keyword x items false E).
Qed.

Lemma scan_broken (keyword : string) (before after : list pyval) (x : pyval) :
  Forall (fun x => named keyword fields x = Some false) before ->
  unreadable fields x ->
  or_none (scan (PStr keyword) (before ++ x :: after)) = PNone.
Proof.
  intros Hbefore Hx. rewrite (@scan_skips keyword before _ Hbefore).
  now destruct (@scan_unreadable keyword x after Hx) as [e ->].
Qed.

End Scan.

Lemma scan_members_unreadable (keyword : string) (x : pyval) (rest : list pyval) :
  unreadable member_fields x ->
  exists e, scan_members (PStr keyword) (x :: rest) = Raise e.
Proof.
  intros [Hx | (d & f & fs & -> & [= <- _] & Hnull)].
  - destruct x; try (eexists; reflexivity). now destruct (Hx kvs).
  - cbn [scan_members py_get rbind]. unfold dict_get_default at 1.
    rewrite Hnull. eexists. reflexivity.
Qed.

Lemma scan_friends_unreadable (keyword : string) (x : pyval) (rest : list pyval) :
  unreadable friend_fields x ->
  exists e, scan_friends (PStr keyword) (x :: rest) = Raise e.
Proof.
  intros [Hx | (d & f & fs & -> & [= <- _] & Hnull)].
  - destruct x; try (eexists; reflexivity). now destruct (Hx kvs).
  - cbn [scan_friends py_get rbind]. unfold dict_get_default at 1.
    rewrite Hnull. eexists. reflexivity.
Qed.

Lemma scan_groups_unreadable (keyword : string) (x : pyval) (rest : list pyval) :
  unreadable group_fields x ->
  exists e, scan_groups (PStr keyword) (x :: rest) = Raise e.
Proof.
  intros [Hx | (d & f & fs & -> & [= <- _] & Hnull)].
  - destruct x; try (eexists; reflexivity). now destruct (Hx kvs).
  - cbn [scan_groups py_get rbind]. unfold dict_get_default at 1.
    rewrite Hnull. eexists. reflexivity.
Qed.

Lemma scan_messages_none (keyword : string) (messages : list pyval) :
  Forall (fun x => exists s, text_of x = Some s /\ contains keyword s = false)
         messages ->
  scan_messages (PStr keyword) messages = Ret PNone.
Proof.
  induction 1 as [|x messages (s & Hs & Hno) _ IH]; [reflexivity|].
  destruct x as [| | | | |d]; try discriminate.
  cbn [text_of] in Hs. cbn [scan_messages py_get rbind].
  destruct (dict_get_default d "raw_message" (PStr "")); try discriminate.
  injection Hs as ->. cbn [py_in rbind]. now rewrite Hno.
Qed.

Lemma no_mention_none (keyword : string) (rep : reply) :
  no_mention keyword rep -> or_none (scan_history (PStr keyword) rep) = PNone.
Proof.
  intros [Hfail | (messages & Hmsgs & Hall)].
  - now apply scan_history_failure.
  - now rewrite (scan_history_returned _ _ Hmsgs), scan_messages_none.
Qed.

Lemma keyword_truthy (self : ActivePokeAction) (keyword : string) :
  keywords self = PStr keyword -> keyword <> "" -> truthy (keywords self) = true.
Proof. intros -> H. cbn. now destruct keyword. Qed.

(** ** Resolution through the member, friend and group lists *)

Section Resolution.

Variables (self : ActivePokeAction) (gw : gateway) (port : Z) (keyword : string).

Hypothesis has_keyword : keywords self = PStr keyword.
Hypothesis keyword_not_empty : keyword <> "".
Hypothesis usable_port : py_int (napcat_port self) = Ret port.

Let history :=
  group_msg_history_request (napcat_host self) port (token self)
    (context_group_id self).
Let members :=
  group_member_list_request (napcat_host self) port (token self)
    (context_group_id self).
Let friends := friend_list_request (napcat_host self) port (token self).
Let groups := group_list_request (napcat_host self) port (token self).





End Resolution.





(** X5: a known context group is never replaced: whatever the gateway
    answers, the group [get_ids] returns is the context group, and neither
    the group list nor the friend list is queried. *)
Theorem known_group_is_kept (self : ActivePokeAction) (gw : gateway)
    (user_id group_id : pyval) (log : list request) :
  truthy (context_group_id self) = true ->
  run (get_ids self) gw = (Ret (user_id, group_id), log) ->
  group_id = context_group_id self /\
  ~ In "/get_group_list" (endpoints log) /\
  ~ In "/get_friend_list" (endpoints log).
Proof.
  intros Hg. unfold run.
  destruct (truthy (keywords self)) eqn:Hk.
  2: { rewrite (get_ids_no_keywords _ gw [] Hk). intros [= _ <- <-].
       repeat split; not_listed. }
  destruct (py_int (napcat_port self)) as [port|e] eqn:Hp.
  2: { now rewrite (get_ids_bad_port _ gw [] Hk Hp). }
  rewrite (get_ids_in_group _ gw [] Hk Hp Hg).
  match goal with |- context [if ?c then _ else _] => destruct c end;
    intros [= _ <- <-]; repeat split; not_listed.
Qed.

Lemma known_group_is_kept_witness :
  PInt 100 = context_group_id (group_action (PInt 10001)) /\
  ~ In "/get_group_list"
      (endpoints [group_msg_history_request "127.0.0.1" 4999 "" (PInt 100)]) /\
  ~ In "/get_friend_list"
      (endpoints [group_msg_history_request "127.0.0.1" 4999 "" (PInt 100)]).
Proof.
  exact (@known_group_is_kept (group_action (PInt 10001)) history_gateway
           (PInt 42) (PInt 100) _ eq_refl eq_refl).
Defined.

(** ** The requests of one execution *)

(** The log of [get_ids] with the requests themselves. *)
Lemma get_ids_requests (self : ActivePokeAction) (gw : gateway)
    (r : result (pyval * pyval)) (log : list request) :
  run (get_ids self) gw = (r, log) ->
  log = [] \/
  exists port,
    py_int (napcat_port self) = Ret port /\
    let host := napcat_host self in
    let tok := token self in
    let group_id := context_group_id self in
    (log = [group_msg_history_request host port tok group_id]
     \/ log = [group_msg_history_request host port tok group_id;
               group_member_list_request host port tok group_id]
     \/ log = [friend_list_request host port tok;
               group_list_request host port tok]).
Proof.
  unfold run. intros H.
  destruct (truthy (keywords self)) eqn:Hk.
  2: { rewrite get_ids_no_keywords in H by assumption.
       injection H as _ <-. now left. }
  destruct (py_int (napcat_port self)) as [port|e] eqn:Hp.
  2: { rewrite (get_ids_bad_port _ _ _ Hk Hp) in H.
       injection H as _ <-. now left. }
  right. exists port. split; [reflexivity|]. cbv zeta.
  destruct (truthy (context_group_id self)) eqn:Hg.
  - rewrite (get_ids_in_group _ gw [] Hk Hp Hg) in H.
    match type of H with
    | (if ?c then _ else _) = _ => destruct c
    end; injection H as _ <-; auto.
  - rewrite (get_ids_no_group _ gw [] Hk Hp Hg) in H.
    injection H as _ <-. auto.
Qed.

Lemma execute_cases (self : ActivePokeAction) (gw : gateway) :
  execution self gw (run (execute self) gw).
Proof.
  destruct (run (get_ids self) gw) as [[[user_id group_id]|e] log] eqn:Hres.
  2: { rewrite (execute_raises _ _ Hres). now constructor. }
  destruct (self_target (self_id self) user_id) eqn:Hs.
  { rewrite (execute_self_target _ _ Hres Hs). econstructor; eassumption. }
  destruct (py_int (napcat_port self)) as [port|e] eqn:Hp.
  - rewrite (execute_sends _ _ Hres Hs Hp). econstructor; eassumption.
  - rewrite (execute_bad_port _ _ Hres Hs Hp). econstructor; eassumption.
Qed.

(** X6: one execution makes one of eight request sequences: nothing, the
    history, the history and the member list, or the friend list and the
    group list, each followed or not by a single poke.  There are at most
    three requests, and a poke is always the last one. *)
Theorem execute_request_sequences (self : ActivePokeAction) (gw : gateway) :
  In (endpoints (requests (run (execute self) gw)))
     [ [];
       ["/send_poke"];
       ["/get_group_msg_history"];
       ["/get_group_msg_history"; "/send_poke"];
       ["/get_group_msg_history"; "/get_group_member_list"];
       ["/get_group_msg_history"; "/get_group_member_list"; "/send_poke"];
       ["/get_friend_list"; "/get_group_list"];
       ["/get_friend_list"; "/get_group_list"; "/send_poke"] ].
Proof.
  destruct (execute_cases self gw) as [e log H | u g log H _ | u g log e H _ _
                                       | u g log port H _ _ rq];
    unfold requests; cbn [snd];
    destruct (get_ids_endpoints _ _ H) as [E|[E|[E|E]]];
    unfold endpoints in *; rewrite ?map_app, ?E; cbn; tauto.
Qed.

(** X7: every request of an execution goes to the configured host and to
    the port [int] makes of the configured one, announces JSON, and carries
    an [Authorization] header exactly when the token is not empty, with the
    token as its value. *)
Theorem requests_follow_configuration (self : ActivePokeAction) (gw : gateway)
    (rq : request) :
  In rq (requests (run (execute self) gw)) ->
  req_host rq = napcat_host self /\
  py_int (napcat_port self) = Ret (req_port rq) /\
  dict_get "Content-Type" (headers rq) = Some (PStr "application/json") /\
  dict_get "Authorization" (headers rq) =
    if (token self =? "")%string then None else Some (PStr (token self)).
Proof.
  assert (Hheaders :
    dict_get "Content-Type" (make_headers (token self))
      = Some (PStr "application/json") /\
    dict_get "Authorization" (make_headers (token self)) =
      if (token self =? "")%string then None else Some (PStr (token self))).
  { unfold make_headers. cbn [truthy].
    destruct (token self =? "")%string; split; reflexivity. }
  assert (Hresolution : forall r log, run (get_ids self) gw = (r, log) ->
            In rq log ->
            req_host rq = napcat_host self /\
            py_int (napcat_port self) = Ret (req_port rq) /\
            headers rq = make_headers (token self)).
  { intros r log H Hin.
    destruct (get_ids_requests _ _ H) as [-> | (port & Hp & [-> | [-> | ->]])];
      cbn [In] in Hin;
      repeat (destruct Hin as [<- | Hin]; [now repeat split|]);
      contradiction. }
  intros Hin.
  enough (req_host rq = napcat_host self /\
          py_int (napcat_port self) = Ret (req_port rq) /\
          headers rq = make_headers (token self)) as (Hh & Hp & ->)
    by (repeat split; tauto).
  destruct (execute_cases self gw) as [e log H | u g log H _ | u g log e H _ _
                                       | u g log port H _ Hp rq'];
    unfold requests in Hin; cbn [snd] in Hin; eauto.
  apply in_app_or in Hin as [Hin | [<- | []]]; [eauto | now repeat split].
Qed.

Lemma requests_follow_configuration_witness :
  let rq := send_poke_request token_action 4999 PNone (PInt 100) in
  req_host rq = "127.0.0.1" /\
  py_int (PStr "4999") = Ret (req_port rq) /\
  dict_get "Content-Type" (headers rq) = Some (PStr "application/json") /\
  dict_get "Authorization" (headers rq) = Some (PStr "secret").
Proof.
  refine (@requests_follow_configuration token_action rejecting_gateway
            (send_poke_request token_action 4999 PNone (PInt 100)) _).
  vm_compute. tauto.
Defined.

Lemma send_result_success (self : ActivePokeAction) (user_id group_id : pyval)
    (rep : reply) :
  fst (send_result self user_id group_id rep) = true <-> success_reply rep.
Proof.
  unfold send_result.
  destruct rep as [e|e|text [j|e]]; cbn [fst send_failed].
  - split; [discriminate | inversion 1].
  - split; [discriminate | inversion 1].
  - destruct j as [| b | n | s | xs | d]; cbn [fst];
      try (split; [intros _|reflexivity];
           apply success_not_an_object; discriminate).
    rewrite py_eq_str. split.
    + now constructor.
    + inversion 1 as [| ? ? Hj | ]; subst; [now destruct (Hj d) | assumption].
  - split; [intros _; constructor | reflexivity].
Qed.

Lemma report_success (sent : bool * string) (message : string) :
  report sent = (true, message) <->
  fst sent = true /\ message = "戳一戳操作成功".
Proof.
  destruct sent as [[] result]; cbn.
  - split; [now intros [= <-] | now intros [_ ->]].
  - split; [discriminate | now intros [? _]].
Qed.

(** X8: [execute] reports success exactly when it made the request to
    [/send_poke] and the reply counts as a success for [send_poke]; the
    message is then always the fixed success text. *)
Theorem execute_success_iff (self : ActivePokeAction) (gw : gateway)
    (message : string) :
  outcome (run (execute self) gw) = Ret (true, message) <->
  message = "戳一戳操作成功" /\
  exists rq,
    In rq (requests (run (execute self) gw)) /\
    endpoint rq = "/send_poke" /\
    success_reply (gw rq).
Proof.
  destruct (execute_cases self gw) as [e log H | u g log H _ | u g log e H _ _
                                       | u g log port H _ Hp rq];
    unfold outcome, requests; cbn [fst snd].
  1-3: split; [discriminate|];
       intros (_ & rq & Hin & Hend & _);
       destruct (get_ids_never_sends _ _ H);
       unfold endpoints; rewrite <- Hend; now apply in_map.
  split.
  - intros [= Hrep]. apply report_success in Hrep as [Hok ->].
    split; [reflexivity|]. exists rq. split; [|split].
    + apply in_or_app. right. now left.
    + reflexivity.
    + now apply send_result_success in Hok.
  - intros (-> & rq' & Hin & Hend & Hok).
    apply in_app_or in Hin as [Hin | [<- | []]].
    + destruct (get_ids_never_sends _ _ H).
      unfold endpoints. rewrite <- Hend. now apply in_map.
    + f_equal. apply report_success. split; [|reflexivity].
      now apply send_result_success.
Qed.

Lemma get_ids_raises_inv (self : ActivePokeAction) (gw : gateway) (e : exn)
    (log : list request) :
  run (get_ids self) gw = (Raise e, log) ->
  truthy (keywords self) = true /\ py_int (napcat_port self) = Raise e /\ log = [].
Proof.
  unfold run. intros H.
  destruct (truthy (keywords self)) eqn:Hk.
  2: { now rewrite (get_ids_no_keywords self gw [] Hk) in H. }
  destruct (py_int (napcat_port self)) as [port|e'] eqn:Hp.
  - destruct (get_ids_returns self gw Hp) as [ids Hids].
    unfold run in Hids. rewrite H in Hids. discriminate Hids.
  - rewrite (get_ids_bad_port self gw [] Hk Hp) in H.
    injection H as -> <-. now repeat split.
Qed.



(** ** What an execution leaves behind *)

Lemma dict_set_keys (k : string) (v : pyval) (d : pydict) :
  dict_mem k d = true -> map fst (dict_set k v d) = map fst d.
Proof.
  unfold dict_mem. induction d as [|[k' v'] d IH]; cbn [dict_get dict_set];
    [discriminate|].
  destruct (k =? k')%string; [reflexivity|]. intros H. cbn [map fst].
  now rewrite IH.
Qed.

Lemma dict_get_set_other (k k' : string) (v : pyval) (d : pydict) :
  k' <> k -> dict_get k' (dict_set k v d) = dict_get k' d.
Proof.
  intros Hne. induction d as [|[k0 v0] d IH]; cbn [dict_set dict_get].
  - apply String.eqb_neq in Hne. now rewrite Hne.
  - destruct (k =? k0)%string eqn:E; cbn [dict_get].
    + apply String.eqb_eq in E as <-.
      apply String.eqb_neq in Hne. now rewrite Hne.
    + now rewrite IH.
Qed.

(** From its call of [get_ids] on, [execute] leaves every attribute but
    [action_data] untouched; [action_data] keeps its keys in their order and
    every value except the one of ["user_id"], which is either kept or
    [None]. *)
Lemma execute_body_frame (self self' : ActivePokeAction) (gw : gateway)
    (out : bool * string) :
  fst (run (execute self) gw) = Ret (self', out) ->
  message self' = message self /\
  chat_stream self' = chat_stream self /\
  own_group_id self' = own_group_id self /\
  own_user_id self' = own_user_id self /\
  napcat_host self' = napcat_host self /\
  napcat_port self' = napcat_port self /\
  poke_debug self' = poke_debug self /\
  token self' = token self /\
  map fst (action_data self') = map fst (action_data self) /\
  (forall k, k <> "user_id" ->
     dict_get k (action_data self') = dict_get k (action_data self)) /\
  (dict_get "user_id" (action_data self') = dict_get "user_id" (action_data self)
   \/ dict_get "user_id" (action_data self') = Some PNone).
Proof.
  assert (Hclear : forall s, s = clear_user_id self ->
    message s = message self /\ chat_stream s = chat_stream self /\
    own_group_id s = own_group_id self /\ own_user_id s = own_user_id self /\
    napcat_host s = napcat_host self /\ napcat_port s = napcat_port self /\
    poke_debug s = poke_debug self /\ token s = token self /\
    map fst (action_data s) = map fst (action_data self) /\
    (forall k, k <> "user_id" ->
       dict_get k (action_data s) = dict_get k (action_data self)) /\
    (dict_get "user_id" (action_data s) = dict_get "user_id" (action_data self)
     \/ dict_get "user_id" (action_data s) = Some PNone)).
  { intros s ->. unfold clear_user_id.
    destruct (dict_mem "user_id" (action_data self)) eqn:Hmem.
    - cbn [message chat_stream own_group_id own_user_id napcat_host napcat_port
           poke_debug token action_data].
      repeat split; try reflexivity.
      + now apply dict_set_keys.
      + intros k Hk. now apply dict_get_set_other.
      + right. apply dict_get_set.
    - repeat split; try reflexivity. now left. }
  destruct (execute_cases self gw) as [e log H | u g log H _ | u g log e H _ _
                                       | u g log port H _ Hp rq];
    cbn [fst]; try discriminate; intros [= <- _].
  1-2: repeat split; try reflexivity; now left.
  now apply Hclear.
Qed.

(** X10: whenever [execute] returns, it leaves the attributes [message],
    [chat_stream], [group_id], [user_id], [napcat_host], [napcat_port],
    [poke_debug] and [token] of the action object untouched;
    [plugin_config] is as before or is the table the reload loaded;
    [action_data] keeps its keys in their order and every value except the
    one of ["user_id"], which is either kept or [None]. *)
Theorem execute_frame (rl : Full.reload) (self self' : ActivePokeAction)
    (plugin_config plugin_config' : pydict) (gw : gateway) (out : bool * string) :
  fst (run (Full.execute rl self plugin_config) gw)
    = Ret (self', plugin_config', out) ->
  message self' = message self /\
  chat_stream self' = chat_stream self /\
  own_group_id self' = own_group_id self /\
  own_user_id self' = own_user_id self /\
  napcat_host self' = napcat_host self /\
  napcat_port self' = napcat_port self /\
  poke_debug self' = poke_debug self /\
  token self' = token self /\
  (plugin_config' = plugin_config \/ rl = Full.Rebound plugin_config') /\
  map fst (action_data self') = map fst (action_data self) /\
  (forall k, k <> "user_id" ->
     dict_get k (action_data self') = dict_get k (action_data self)) /\
  (dict_get "user_id" (action_data self') = dict_get "user_id" (action_data self)
   \/ dict_get "user_id" (action_data self') = Some PNone).
Proof.
  unfold run. intros H.
  assert (Hreload : exists config,
            Full.reloaded rl plugin_config = Ret config /\
            (config = plugin_config \/ rl = Full.Rebound config)).
  { destruct rl as [|config|e0].
    - exists plugin_config. split; [reflexivity | now left].
    - exists config. split; [reflexivity | now right].
    - now rewrite (@full_execute_reload_raised (Full.ReloadRaised e0) self
                     plugin_config gw [] e0 eq_refl) in H. }
  destruct Hreload as (config & Hrl & Hconfig).
  destruct (Full.HTTPConnection (napcat_host self)) as [[]|e1] eqn:Hc.
  - rewrite (full_execute_accepted rl self plugin_config gw [] Hrl Hc) in H.
    fold (run (execute self) gw) in H.
    destruct (run (execute self) gw) as [[[body_self body_out]|e] log] eqn:Hbody;
      cbn [with_config fst] in H; [|discriminate H].
    injection H as -> -> ->.
    assert (Hfst : fst (run (execute self) gw) = Ret (self', out))
      by now rewrite Hbody.
    destruct (execute_body_frame self gw Hfst)
      as (H1 & H2 & H3 & H4 & H5 & H6 & H7 & H8 & H9 & H10 & H11).
    repeat split; assumption.
  - rewrite (full_execute_rejected rl self plugin_config gw [] Hrl Hc) in H.
    destruct (truthy (keywords self)); [discriminate H|].
    destruct (self_target (self_id self) PNone); cbn [fst] in H;
      injection H as <- <- _; repeat split; try assumption; now left.
Qed.

Lemma execute_frame_witness :
  let self := group_action (PInt 10001) in
  let self' := clear_user_id self in
  let loaded := [("poke", PDict [("port", PInt 5000)])] in
  message self' = message self /\
  chat_stream self' = chat_stream self /\
  own_group_id self' = own_group_id self /\
  own_user_id self' = own_user_id self /\
  napcat_host self' = napcat_host self /\
  napcat_port self' = napcat_port self /\
  poke_debug self' = poke_debug self /\
  token self' = token self /\
  (loaded = [] \/ Full.Rebound loaded = Full.Rebound loaded) /\
  map fst (action_data self') = map fst (action_data self) /\
  (forall k, k <> "user_id" ->
     dict_get k (action_data self') = dict_get k (action_data self)) /\
  (dict_get "user_id" (action_data self') = dict_get "user_id" (action_data self)
   \/ dict_get "user_id" (action_data self') = Some PNone).
Proof.
  exact (@execute_frame (Full.Rebound [("poke", PDict [("port", PInt 5000)])])
           (group_action (PInt 10001))
           (clear_user_id (group_action (PInt 10001)))
           [] [("poke", PDict [("port", PInt 5000)])] rejecting_gateway
           (false, "戳一戳操作失败: {'status': 'failed', 'retcode': 1200, 'message': 'user_id is required'}")
           eq_refl).
Defined.

(** ** What the messages hold *)

Lemma join_cons (sep first : string) (others : list string) :
  exists after, join sep (first :: others) = first ++ after.
Proof.
  destruct others as [|second others]; cbn [join].
  - exists "". now rewrite append_nil_r.
  - now eexists.
Qed.

Lemma headers_show_token (tok : string) :
  tok <> "" ->
  contains (repr_str tok) (py_str (PDict (make_headers tok))) = true.
Proof.
  intros Hne. unfold make_headers. cbn [truthy].
  destruct (tok =? "")%string eqn:E; [now apply String.eqb_eq in E|].
  cbn [negb py_str py_repr map join].
  apply contains_spec.
  exists ("{" ++ repr_str "Content-Type" ++ ": " ++ py_repr (PStr "application/json")
              ++ ", " ++ repr_str "Authorization" ++ ": "), "}".
  cbn [py_repr]. now rewrite !append_assoc.
Qed.

(** X11: with debugging on and a token configured, a failure reported after
    the request to [/send_poke] hands the token back to the caller: the
    message holds the request headers as printed, token included. *)
Theorem debug_failure_shows_token (self : ActivePokeAction) (gw : gateway)
    (message : string) :
  poke_debug self = true ->
  token self <> "" ->
  In "/send_poke" (endpoints (requests (run (execute self) gw))) ->
  outcome (run (execute self) gw) = Ret (false, message) ->
  contains (repr_str (token self)) message = true.
Proof.
  intros Hdebug Htok Hsent.
  destruct (execute_sends_inv _ _ Hsent)
    as (user_id & group_id & log & port & _ & _ & _ & ->).
  unfold outcome. cbn [fst].
  set (rep := gw (send_poke_request self port user_id group_id)).
  assert (Hfirst : exists after,
    snd (send_result self user_id group_id rep) =
      ("戳一戳请求头: " ++ py_str (PDict (make_headers (token self)))
         ++ ", user_id: " ++ py_str user_id
         ++ ", group_id: " ++ py_str group_id) ++ after).
  { unfold send_result, request_debug_msgs, send_failed. rewrite Hdebug.
    destruct rep as [e|e|text [j|e]]; cbn [snd List.app]; try apply join_cons.
    destruct j; cbn [snd]; apply join_cons. }
  destruct Hfirst as [after Hfirst].
  assert (Hshown : contains (repr_str (token self))
                     (snd (send_result self user_id group_id rep)) = true).
  { rewrite Hfirst. apply contains_app_r, contains_app_l, contains_app_r.
    now apply headers_show_token. }
  destruct (send_result self user_id group_id rep) as [[] result]; cbn [report];
    [discriminate|].
  cbn [snd] in Hshown. intros [= <-].
  destruct (result =? "")%string eqn:E.
  - apply String.eqb_eq in E. subst result. discriminate Hshown.
  - exact (@contains_app_l (repr_str (token self)) "戳一戳操作失败: " result Hshown).
Qed.

Lemma debug_failure_shows_token_witness :
  exists message,
    outcome (run (execute token_action) rejecting_gateway) = Ret (false, message) /\
    contains "'secret'" message = true.
Proof.
  eexists. split; [reflexivity|].
  refine (@debug_failure_shows_token token_action rejecting_gateway _
            eq_refl _ _ eq_refl).
  - discriminate.
  - vm_compute. tauto.
Defined.

Lemma join_snoc_not_empty (sep : string) (parts : list string) (last : string) :
  last <> "" -> join sep (List.app parts [last]) <> "".
Proof.
  intros Hlast. destruct (join_snoc sep parts last) as [before ->].
  destruct before; [exact Hlast | discriminate].
Qed.

Lemma py_repr_dict_not_empty (d : pydict) : py_str (PDict d) <> "".
Proof. cbn [py_str py_repr]. discriminate. Qed.

Lemma send_result_failure_text (self : ActivePokeAction)
    (user_id group_id : pyval) (rep : reply) :
  fst (send_result self user_id group_id rep) = false ->
  snd (send_result self user_id group_id rep) <> "".
Proof.
  unfold send_result, send_failed.
  destruct rep as [e|e|text [j|e]]; cbn [fst snd]; try discriminate.
  - intros _. apply join_snoc_not_empty. discriminate.
  - intros _. apply join_snoc_not_empty. discriminate.
  - destruct j as [| | | | |d]; cbn [fst snd]; try discriminate.
    intros _. apply join_snoc_not_empty, py_repr_dict_not_empty.
Qed.

(** X12: when [send_poke] returns failure its text is never empty, so the
    failure message of [execute] is the failure prefix followed by that text
    and the "未知错误" fallback is never used. *)
Theorem failure_text_is_never_empty (self : ActivePokeAction)
    (user_id group_id : pyval) (gw : gateway) (result : string)
    (log : list request) :
  run (send_poke self user_id group_id) gw = (Ret (false, result), log) ->
  result <> "" /\
  report (false, result) = (false, "戳一戳操作失败: " ++ result).
Proof.
  intros Hrun.
  assert (Hne : result <> "").
  { unfold run in Hrun.
    destruct (py_int (napcat_port self)) as [port|e] eqn:Hp.
    2: { now rewrite (send_poke_bad_port self user_id group_id gw [] Hp) in Hrun. }
    rewrite (send_poke_run self user_id group_id gw [] Hp) in Hrun.
    set (rq := send_poke_request self port user_id group_id) in *.
    assert (Hsent : send_result self user_id group_id (gw rq) = (false, result))
      by congruence.
    pose proof (send_result_failure_text self user_id group_id (gw rq)) as Htext.
    rewrite Hsent in Htext. now apply Htext. }
  split; [exact Hne|]. unfold report.
  apply String.eqb_neq in Hne. now rewrite Hne.
Qed.

Lemma failure_text_is_never_empty_witness :
  let result :=
    "戳一戳异常: {'error_type': 'ConnectionRefusedError', 'error_message': '[Errno 111] Connection refused'}" in
  result <> "" /\
  report (false, result) = (false, "戳一戳操作失败: " ++ result).
Proof.
  exact (@failure_text_is_never_empty plain_action (PInt 12345) PNone
           down_gateway _
           [send_poke_request plain_action 4999 (PInt 12345) PNone] eq_refl).
Defined.

(** X13: without keywords ([poke_keywords] missing, [None] or empty) no
    lookup endpoint is queried and the ambient identity is not consulted: an
    execution makes no request at all, or the single request to [/send_poke]
    with [user_id] set to [None] and the context group. *)
Theorem no_keywords_no_lookup (self : ActivePokeAction) (gw : gateway) :
  truthy (keywords self) = false ->
  requests (run (execute self) gw) = [] \/
  exists port,
    py_int (napcat_port self) = Ret port /\
    requests (run (execute self) gw) =
      [send_poke_request self port PNone (context_group_id self)].
Proof.
  intros Hk.
  pose proof (get_ids_no_keywords self gw [] Hk) as Hids.
  destruct (execute_cases self gw) as [e log H | u g log H _ | u g log e H _ _
                                       | u g log port H _ Hp rq];
    unfold run in H; rewrite Hids in H; injection H as <- <- <- || discriminate H;
    unfold requests; cbn [snd]; auto.
  right. exists port. now split.
Qed.

Lemma no_keywords_no_lookup_witness :
  requests (run (execute plain_action) accepting_gateway) = [] \/
  exists port,
    py_int (napcat_port plain_action) = Ret port /\
    requests (run (execute plain_action) accepting_gateway) =
      [send_poke_request plain_action port PNone PNone].
Proof.
  exact (@no_keywords_no_lookup plain_action accepting_gateway eq_refl).
Defined.

(** * The helpers of the plugin class *)

Example to_bool_examples :
  map _to_bool [PStr " TRUE "; PStr "Yes"; PStr "on"; PStr "1"; PStr "false";
                PStr "2"; PStr ""; PInt 2; PInt 0; PBool true; PNone;
                PList [PNone]]
  = [true; true; true; true; false; false; false; true; false; true; false; true].
Proof. reflexivity. Qed.

Example match_poke_keyword_examples :
  match_poke_keyword "快来戳我一下" = Some "戳我" /\
  match_poke_keyword "戳他" = None.
Proof. split; reflexivity. Qed.

(** ** Truth values read from the configuration *)

(** A byte that starts no white-space character stops [str_lstrip]. *)
Lemma str_lstrip_keeps (c : ascii) (rest : string) :
  space1 c = false ->
  (nat_of_ascii c <? 128)%nat = true ->
  str_lstrip (String c rest) = String c rest.
Proof.
  intros Hspace Hascii. cbn [str_lstrip]. rewrite Hspace.
  apply Nat.ltb_lt in Hascii.
  assert (H2 : forall c2, space2 c c2 = false).
  { intros c2. unfold space2.
    replace (nat_of_ascii c =? 194)%nat with false; [reflexivity|].
    symmetry. apply Nat.eqb_neq. intros E. rewrite E in Hascii.
    now apply Nat.ltb_lt in Hascii. }
  assert (H3 : forall c2 c3, space3 c c2 c3 = false).
  { intros c2 c3. unfold space3.
    replace (nat_of_ascii c =? 225)%nat with false.
    2: { symmetry. apply Nat.eqb_neq. intros E. rewrite E in Hascii.
         now apply Nat.ltb_lt in Hascii. }
    replace (nat_of_ascii c =? 226)%nat with false.
    2: { symmetry. apply Nat.eqb_neq. intros E. rewrite E in Hascii.
         now apply Nat.ltb_lt in Hascii. }
    replace (nat_of_ascii c =? 227)%nat with false; [reflexivity|].
    symmetry. apply Nat.eqb_neq. intros E. rewrite E in Hascii.
    now apply Nat.ltb_lt in Hascii. }
  destruct rest as [|c2 [|c3 rest]]; rewrite ?H2, ?H3; reflexivity.
Qed.

Lemma str_lstrip_printed (d : Decimal.uint) :
  str_lstrip (NilEmpty.string_of_uint d) = NilEmpty.string_of_uint d.
Proof. destruct d; [reflexivity|..]; now apply str_lstrip_keeps. Qed.

Lemma str_rstrip_printed (d : Decimal.uint) :
  str_rstrip (NilEmpty.string_of_uint d) = NilEmpty.string_of_uint d.
Proof.
  induction d as [|d IH|d IH|d IH|d IH|d IH|d IH|d IH|d IH|d IH|d IH];
    [reflexivity|..];
    cbn [NilEmpty.string_of_uint str_rstrip];
    rewrite str_lstrip_keeps by reflexivity; cbn [String.eqb Ascii.eqb];
    now rewrite IH.
Qed.

Lemma lower_printed (d : Decimal.uint) :
  lower_ascii (NilEmpty.string_of_uint d) = NilEmpty.string_of_uint d.
Proof.
  induction d as [|d IH|d IH|d IH|d IH|d IH|d IH|d IH|d IH|d IH|d IH];
    [reflexivity|..];
    cbn [NilEmpty.string_of_uint lower_ascii]; now rewrite IH.
Qed.

(** Stripping and lowering leave the decimal text of an integer alone. *)
Lemma printed_integer_is_clean (n : Z) :
  lower_ascii (str_strip (string_of_Z n)) = string_of_Z n.
Proof.
  assert (Hneg : forall d,
    lower_ascii (str_strip (String "-" (NilEmpty.string_of_uint d)))
      = String "-" (NilEmpty.string_of_uint d)).
  { intros d. unfold str_strip. rewrite str_lstrip_keeps by reflexivity.
    cbn [str_rstrip]. rewrite str_lstrip_keeps by reflexivity.
    cbn [String.eqb Ascii.eqb]. rewrite str_rstrip_printed.
    cbn [lower_ascii]. now rewrite lower_printed. }
  assert (Hpos : forall d,
    lower_ascii (str_strip (NilEmpty.string_of_uint d))
      = NilEmpty.string_of_uint d).
  { intros d. unfold str_strip.
    now rewrite str_lstrip_printed, str_rstrip_printed, lower_printed. }
  unfold string_of_Z.
  destruct n as [|p|p]; [reflexivity| |]; cbn [Z.to_int NilZero.string_of_int];
    unfold NilZero.string_of_uint;
    destruct (Pos.to_uint p); try reflexivity;
    first [apply Hpos | apply Hneg].
Qed.

(** The decimal text of an integer reads back as that integer, so it is no
    other text. *)
Lemma printed_integer_reads_back (n : Z) :
  NilZero.int_of_string (string_of_Z n) = Some (Z.to_int n).
Proof.
  unfold string_of_Z. apply NilZero.isi; destruct n as [|p|p]; try discriminate;
    intros [= E]; pose proof (Unsigned.of_to p) as H; rewrite E in H;
    discriminate H.
Qed.

Lemma printed_integer_differs (n : Z) (word : string) :
  NilZero.int_of_string word <> Some (Z.to_int n) ->
  (string_of_Z n =? word)%string = false.
Proof.
  intros Hword. apply String.eqb_neq. intros E. apply Hword.
  rewrite <- E. apply printed_integer_reads_back.
Qed.

(** X16: [_to_bool] takes an integer for true when it is not 0, but the
    text of an integer only when it is the text of 1: [_to_bool(2)] is true
    and [_to_bool("2")] is false. *)
Theorem to_bool_of_integers (n : Z) :
  _to_bool (PInt n) = negb (n =? 0) /\
  _to_bool (PStr (py_str (PInt n))) = (n =? 1).
Proof.
  split; [reflexivity|].
  cbn [_to_bool py_str py_repr]. rewrite printed_integer_is_clean.
  cbn [existsb].
  rewrite (@printed_integer_differs n "true") by discriminate.
  rewrite (@printed_integer_differs n "yes") by discriminate.
  rewrite (@printed_integer_differs n "on") by discriminate.
  cbn [orb]. rewrite orb_false_r.
  destruct (n =? 1) eqn:E.
  - apply Z.eqb_eq in E. now subst n.
  - apply printed_integer_differs. intros [= H].
    apply (f_equal Z.of_int) in H. rewrite DecimalZ.of_to in H.
    subst n. discriminate E.
Qed.

Lemma solid_keeps (c : ascii) (rest : string) :
  solid c = true -> str_lstrip (String c rest) = String c rest.
Proof.
  unfold solid. intros H. apply andb_true_iff in H as [Hs Ha].
  apply negb_true_iff in Hs. now apply str_lstrip_keeps.
Qed.

(** [str_lstrip] by cases on how the text starts. *)
Lemma str_lstrip_cases (s : string) :
  (exists c rest, s = String c rest /\ space1 c = true /\
                  str_lstrip s = str_lstrip rest)
  \/ (exists c1 c2 rest, s = String c1 (String c2 rest) /\ space2 c1 c2 = true /\
                         str_lstrip s = str_lstrip rest)
  \/ (exists c1 c2 c3 rest,
        s = String c1 (String c2 (String c3 rest)) /\ space3 c1 c2 c3 = true /\
        str_lstrip s = str_lstrip rest)
  \/ str_lstrip s = s.
Proof.
  destruct s as [|c1 rest1]; [now repeat right|].
  cbn [str_lstrip]. destruct (space1 c1) eqn:E1.
  { left. now exists c1, rest1. }
  destruct rest1 as [|c2 rest2]; [now repeat right|].
  destruct (space2 c1 c2) eqn:E2.
  { right. left. now exists c1, c2, rest2. }
  destruct rest2 as [|c3 rest3]; [now repeat right|].
  destruct (space3 c1 c2 c3) eqn:E3.
  { right. right. left. now exists c1, c2, c3, rest3. }
  now repeat right.
Qed.

Lemma str_lstrip_space1 (c : ascii) (rest : string) :
  space1 c = true -> str_lstrip (String c rest) = str_lstrip rest.
Proof. intros H. cbn [str_lstrip]. now rewrite H. Qed.

Lemma space1_not_space2 (c1 c2 : ascii) :
  space2 c1 c2 = true -> space1 c1 = false.
Proof.
  unfold space2, space1. intros H.
  apply andb_true_iff in H as [H _]. apply Nat.eqb_eq in H. now rewrite H.
Qed.

Lemma space_not_space3 (c1 c2 c3 : ascii) :
  space3 c1 c2 c3 = true -> space1 c1 = false /\ space2 c1 c2 = false.
Proof.
  unfold space3, space2, space1. intros H.
  repeat (apply orb_true_iff in H as [H | H]);
    repeat (apply andb_true_iff in H as [H ?]);
    apply Nat.eqb_eq in H; now rewrite H.
Qed.

Lemma str_lstrip_space2 (c1 c2 : ascii) (rest : string) :
  space2 c1 c2 = true ->
  str_lstrip (String c1 (String c2 rest)) = str_lstrip rest.
Proof.
  intros H. cbn [str_lstrip]. now rewrite (space1_not_space2 _ _ H), H.
Qed.

Lemma str_lstrip_space3 (c1 c2 c3 : ascii) (rest : string) :
  space3 c1 c2 c3 = true ->
  str_lstrip (String c1 (String c2 (String c3 rest))) = str_lstrip rest.
Proof.
  intros H. cbn [str_lstrip].
  destruct (space_not_space3 _ _ _ H) as [-> ->]. now rewrite H.
Qed.

(** Leading white space does not count. *)
Lemma str_lstrip_blank_app (pad t : string) :
  blank pad -> str_lstrip (pad ++ t) = str_lstrip t.
Proof.
  unfold blank.
  remember (String.length pad) as n eqn:Hn. revert pad Hn.
  induction n as [n IH] using (well_founded_induction Wf_nat.lt_wf).
  intros pad Hn Hblank.
  destruct (str_lstrip_cases pad)
    as [(c & rest & -> & Hs & E) | [(c1 & c2 & rest & -> & Hs & E)
       | [(c1 & c2 & c3 & rest & -> & Hs & E) | E]]].
  - cbn [append]. rewrite str_lstrip_space1 by assumption.
    apply (IH (String.length rest)); [subst n; cbn; auto with arith | reflexivity |].
    now rewrite <- E.
  - cbn [append]. rewrite str_lstrip_space2 by assumption.
    apply (IH (String.length rest)); [subst n; cbn; auto with arith | reflexivity |].
    now rewrite <- E.
  - cbn [append]. rewrite str_lstrip_space3 by assumption.
    apply (IH (String.length rest)); [subst n; cbn; auto with arith | reflexivity |].
    now rewrite <- E.
  - rewrite Hblank in E. now subst pad.
Qed.

(** What [str_lstrip] removes is white space. *)
Lemma str_lstrip_split (s : string) :
  exists pad, s = pad ++ str_lstrip s /\ blank pad.
Proof.
  remember (String.length s) as n eqn:Hn. revert s Hn.
  induction n as [n IH] using (well_founded_induction Wf_nat.lt_wf).
  intros s Hn.
  destruct (str_lstrip_cases s)
    as [(c & rest & -> & Hs & E) | [(c1 & c2 & rest & -> & Hs & E)
       | [(c1 & c2 & c3 & rest & -> & Hs & E) | E]]].
  - destruct (IH (String.length rest)) with (s := rest) as (pad & Hpad & Hb);
      [subst n; cbn; auto with arith | reflexivity |].
    exists (String c pad). rewrite E. split.
    + cbn [append]. now rewrite <- Hpad.
    + unfold blank. now rewrite str_lstrip_space1.
  - destruct (IH (String.length rest)) with (s := rest) as (pad & Hpad & Hb);
      [subst n; cbn; auto with arith | reflexivity |].
    exists (String c1 (String c2 pad)). rewrite E. split.
    + cbn [append]. now rewrite <- Hpad.
    + unfold blank. now rewrite str_lstrip_space2.
  - destruct (IH (String.length rest)) with (s := rest) as (pad & Hpad & Hb);
      [subst n; cbn; auto with arith | reflexivity |].
    exists (String c1 (String c2 (String c3 pad))). rewrite E. split.
    + cbn [append]. now rewrite <- Hpad.
    + unfold blank. now rewrite str_lstrip_space3.
  - exists "". split; [now rewrite E | reflexivity].
Qed.

(** What [str_rstrip] removes is white space. *)
Lemma str_rstrip_split (s : string) :
  exists pad, s = str_rstrip s ++ pad /\ blank pad.
Proof.
  induction s as [|c rest IH]; [now exists ""|].
  cbn [str_rstrip]. destruct (str_lstrip (String c rest) =? "")%string eqn:E.
  - apply String.eqb_eq in E. now exists (String c rest).
  - destruct IH as (pad & Hpad & Hb). exists pad. split; [|exact Hb].
    cbn [append]. now rewrite <- Hpad.
Qed.

Lemma str_rstrip_blank (pad : string) : blank pad -> str_rstrip pad = "".
Proof.
  unfold blank. intros H. destruct pad as [|c rest]; [reflexivity|].
  cbn [str_rstrip]. now rewrite H.
Qed.

(** Trailing white space after visible ASCII text does not count. *)
Lemma str_rstrip_solid_app (w pad : string) :
  all_solid w = true -> blank pad -> str_rstrip (w ++ pad) = w.
Proof.
  intros Hw Hpad. induction w as [|c w IH]; [now apply str_rstrip_blank|].
  cbn [all_solid] in Hw. apply andb_true_iff in Hw as [Hc Hw].
  cbn [append str_rstrip]. rewrite (@solid_keeps c (w ++ pad) Hc).
  cbn [String.eqb]. now rewrite IH.
Qed.

Lemma str_strip_padded (pad w pad' : string) :
  blank pad -> blank pad' -> all_solid w = true ->
  str_strip (pad ++ w ++ pad') = w.
Proof.
  intros Hpad Hpad' Hw. unfold str_strip.
  rewrite (@str_lstrip_blank_app pad (w ++ pad') Hpad).
  destruct w as [|c w].
  - cbn [append]. unfold blank in Hpad'. rewrite Hpad'. reflexivity.
  - cbn [all_solid] in Hw. pose proof Hw as Hcw.
    apply andb_true_iff in Hw as [Hc _].
    cbn [append]. rewrite (@solid_keeps c (w ++ pad') Hc).
    exact (@str_rstrip_solid_app (String c w) pad' Hcw Hpad').
Qed.

Lemma solid_lower (c : ascii) : solid (lower_char c) = true -> solid c = true.
Proof.
  destruct c as [[|] [|] [|] [|] [|] [|] [|] [|]]; intros H;
    solve [reflexivity | exact H].
Qed.

Lemma all_solid_lower (w : string) :
  all_solid (lower_ascii w) = true -> all_solid w = true.
Proof.
  induction w as [|c w IH]; [reflexivity|]. cbn [lower_ascii all_solid].
  intros H. apply andb_true_iff in H as [Hc Hw].
  now rewrite (@solid_lower c Hc), (IH Hw).
Qed.

Lemma true_words_solid (w : string) :
  In (lower_ascii w) true_words -> all_solid w = true.
Proof.
  intros Hin. apply all_solid_lower.
  cbn [true_words In] in Hin.
  destruct Hin as [<- | [<- | [<- | [<- | []]]]]; reflexivity.
Qed.

Lemma existsb_eqb_in (s : string) (words : list string) :
  existsb (String.eqb s) words = true <-> In s words.
Proof.
  rewrite existsb_exists. split.
  - intros (w & Hin & E). apply String.eqb_eq in E. now subst.
  - intros Hin. exists s. split; [exact Hin | apply String.eqb_refl].
Qed.

(** X17: the texts [_to_bool] reads as true are exactly the words [true],
    [1], [yes] and [on], in any mix of upper and lower case, with any amount
    of white space before and after.  Every other text, the empty one and
    ["false"] included, is read as false. *)
Theorem to_bool_of_text (s : string) :
  _to_bool (PStr s) = true <->
  exists pad w pad',
    s = pad ++ w ++ pad' /\ blank pad /\ blank pad' /\
    In (lower_ascii w) true_words.
Proof.
  cbn [_to_bool]. fold true_words. rewrite existsb_eqb_in. split.
  - intros Hin.
    destruct (str_lstrip_split s) as (pad & Hs & Hpad).
    destruct (str_rstrip_split (str_lstrip s)) as (pad' & Hs' & Hpad').
    exists pad, (str_strip s), pad'. repeat split; try assumption.
    unfold str_strip. now rewrite <- Hs'.
  - intros (pad & w & pad' & -> & Hpad & Hpad' & Hin).
    now rewrite (@str_strip_padded pad w pad' Hpad Hpad' (@true_words_solid w Hin)).
Qed.

(** * The history lookup by name or text *)

Lemma scan_history_by_name_returned (target_name : pyval) (rep : reply)
    (messages : list pyval) :
  returned_messages rep = Some messages ->
  scan_history_by_name target_name rep = scan_messages_by_name target_name messages.
Proof.
  unfold returned_messages, scan_history_by_name.
  destruct rep as [e|e|text [j|e]]; try discriminate.
  destruct j as [| | | | |d]; try discriminate. cbn [read_json rbind py_get].
  destruct (py_eq (dict_get_default d "status" PNone) (PStr "ok")); [|discriminate].
  unfold dict_get_default, py_getitem.
  destruct (dict_get "data" d) as [[| | | | |data]|]; try discriminate.
  cbn [rbind py_get]. unfold dict_get_default.
  destruct (dict_get "messages" data) as [[| | | |xs|]|]; try discriminate.
  now intros [= ->].
Qed.

Lemma scan_messages_by_name_step (keyword s : string) (msg : pyval)
    (rest : list pyval) (b : bool) :
  sender_named keyword msg = Some b ->
  text_of msg = Some s ->
  scan_messages_by_name (PStr keyword) (msg :: rest) =
    if b || contains keyword s
    then match sender_id_of msg with Some uid => Ret uid | None => Ret PNone end
    else scan_messages_by_name (PStr keyword) rest.
Proof.
  destruct msg as [| | | | |d]; try discriminate.
  cbn [sender_named text_of sender_id_of scan_messages_by_name py_get rbind].
  destruct (dict_get_default d "sender" (PDict [])) as [| | | | |sender];
    try discriminate.
  unfold named, names_of. cbn [field_texts py_get rbind].
  destruct (dict_get_default sender "nickname" (PStr "")); try discriminate.
  destruct (dict_get_default sender "card" (PStr "")); try discriminate.
  destruct (dict_get_default d "raw_message" (PStr "")); try discriminate.
  cbn [option_map existsb py_in]. intros [= <-] [= ->].
  rewrite !or_else_ret, orb_false_r. cbn [rbind].
  rewrite <- orb_assoc. now destruct (_ || _).
Qed.

Lemma scan_messages_step (keyword s : string) (msg uid : pyval) (rest : list pyval) :
  text_of msg = Some s ->
  sender_id_of msg = Some uid ->
  scan_messages (PStr keyword) (msg :: rest) =
    if contains keyword s then Ret uid else scan_messages (PStr keyword) rest.
Proof.
  destruct msg as [| | | | |d]; try discriminate.
  cbn [text_of sender_id_of scan_messages py_get rbind].
  destruct (dict_get_default d "raw_message" (PStr "")); try discriminate.
  destruct (dict_get_default d "sender" (PDict [])); try discriminate.
  intros [= ->] [= <-]. cbn [py_in rbind py_get].
  now destruct (contains keyword s).
Qed.

Lemma sender_named_has_id (keyword : string) (msg : pyval) (b : bool) :
  sender_named keyword msg = Some b -> exists uid, sender_id_of msg = Some uid.
Proof.
  destruct msg as [| | | | |d]; try discriminate.
  cbn [sender_named sender_id_of].
  destruct (dict_get_default d "sender" (PDict [])); try discriminate.
  now eexists.
Qed.

Lemma scan_messages_agree (keyword : string) (messages : list pyval) :
  Forall (fun x => sender_named keyword x = Some false /\ text_of x <> None)
         messages ->
  scan_messages_by_name (PStr keyword) messages
    = scan_messages (PStr keyword) messages.
Proof.
  induction 1 as [|x messages [Hname Htext] _ IH]; [reflexivity|].
  destruct (text_of x) as [s|] eqn:Hs; [|contradiction].
  destruct (@sender_named_has_id keyword x false Hname) as [uid Hid].
  rewrite (@scan_messages_by_name_step keyword s x messages false Hname Hs).
  rewrite (@scan_messages_step keyword s x uid messages Hs Hid).
  cbn [orb]. rewrite Hid, IH. reflexivity.
Qed.

(** X18: the history lookup by name or text, which nothing calls, returns
    what the lookup by text returns whenever the history is made of
    well-formed messages and no sender's nickname or card holds the keyword;
    both make the same single request. *)
Theorem history_lookups_agree (host : string) (port : Z) (tok keyword : string)
    (group_id : pyval) (gw : gateway) (returned : list pyval) :
  returned_messages (gw (group_msg_history_request host port tok group_id))
    = Some returned ->
  Forall (fun x => sender_named keyword x = Some false /\ text_of x <> None)
         returned ->
  forall log,
    napcat_get_user_id_from_group_history host port tok (PStr keyword) group_id gw log
    = napcat_get_user_id_from_group_history_by_msg host port tok (PStr keyword)
        group_id gw log.
Proof.
  intros Hmsgs Hall log0.
  cbv [napcat_get_user_id_from_group_history
       napcat_get_user_id_from_group_history_by_msg bind post ret].
  rewrite (@scan_history_by_name_returned (PStr keyword) _ returned Hmsgs).
  rewrite (@scan_history_returned (PStr keyword) _ returned Hmsgs).
  now rewrite (@scan_messages_agree keyword returned Hall).
Qed.

Lemma history_lookups_agree_witness :
  napcat_get_user_id_from_group_history "127.0.0.1" 4999 "" (PStr "hello")
    (PInt 100) history_gateway []
  = napcat_get_user_id_from_group_history_by_msg "127.0.0.1" 4999 ""
      (PStr "hello") (PInt 100) history_gateway [].
Proof.
  refine (@history_lookups_agree "127.0.0.1" 4999 "" "hello" (PInt 100)
            history_gateway
            [PDict [("raw_message", PStr "oh hello there");
                    ("sender", PDict [("user_id", PInt 42);
                                      ("nickname", PStr "Restim")])]]
            eq_refl _ []).
  repeat constructor. discriminate.
Defined.

(** With a sender whose nickname holds the keyword the two lookups part:
    by name or text the earlier message of Restim wins, by text alone the
    later message that holds "Rest". *)
Example history_lookups_differ :
  run (napcat_get_user_id_from_group_history "127.0.0.1" 4999 "" (PStr "Rest")
         (PInt 100)) names_gateway
    = (Ret (PInt 41), [group_msg_history_request "127.0.0.1" 4999 "" (PInt 100)]) /\
  run (napcat_get_user_id_from_group_history_by_msg "127.0.0.1" 4999 "" (PStr "Rest")
         (PInt 100)) names_gateway
    = (Ret (PInt 42), [group_msg_history_request "127.0.0.1" 4999 "" (PInt 100)]).
Proof. split; reflexivity. Qed.
